(** * pii_scanner: a shallow embedding of [pii_scanner.py]

    The scanner reads the tabular files of a folder, slices each table in
    windows of [CHUNK_SIZE] rows, flattens a window to one line of text, asks a
    local language model about it and reports the answer.

    Layout of the development:
    - [PyStr]: the operations of Python's [str] and [os.path] the program calls;
    - [Json], [Cell]: the values that travel through the program;
    - [Eff]: the effects of the program as a trace of events, with the errors
      it raises and catches;
    - [Scanner]: the functions of [pii_scanner.py], in the order of the file;
    - the properties, one section per component.

    Conventions.  A Python [str] is a [string] whose characters stand for the
    code points U+0000 to U+00FF (what [encoding="latin1"] yields for a CSV
    file); the only literal of the program outside that range, the rocket of
    the detection banner, is written as its UTF-8 bytes.  Paths follow
    [posixpath]. *)

From Stdlib Require Import String Ascii List ZArith Lia Bool Arith DecimalString.
Import ListNotations.

Open Scope string_scope.
Open Scope list_scope.

(* ================================================================== *)
(** ** Python strings *)

Module PyStr.

Definition chr (n : nat) : ascii := ascii_of_nat n.
Definition nl : string := String (chr 10) "".

(** [str(n)] for a non-negative [int], [str(z)] for any [int]. *)
Definition str_nat (n : nat) : string := NilZero.string_of_uint (Nat.to_uint n).
Definition str_int (z : Z) : string := NilZero.string_of_int (Z.to_int z).
Definition str_bool (b : bool) : string := if b then "True" else "False".

(** [s.startswith(p)] *)
Fixpoint startswith (p s : string) : bool :=
  match p, s with
  | EmptyString, _ => true
  | String a p', String b s' => Ascii.eqb a b && startswith p' s'
  | String _ _, EmptyString => false
  end.

(** [s.endswith(suf)] *)
Fixpoint endswith (suf s : string) : bool :=
  String.eqb s suf ||
  match s with
  | EmptyString => false
  | String _ s' => endswith suf s'
  end.

(** [s.endswith((suf1, suf2, ...))] *)
Definition endswith_any (sufs : list string) (s : string) : bool :=
  existsb (fun suf => endswith suf s) sufs.

(** [needle in s] for two strings. *)
Fixpoint contains (needle s : string) : bool :=
  startswith needle s ||
  match s with
  | EmptyString => false
  | String _ s' => contains needle s'
  end.

(** [c.isspace()] on U+0000..U+00FF: the controls 9..13 and 28..31, the
    space, NEL (0x85) and the no-break space (0xA0). *)
Definition isspace (c : ascii) : bool :=
  let n := nat_of_ascii c in
  (((9 <=? n) && (n <=? 13)) || ((28 <=? n) && (n <=? 32))
   || (n =? 133) || (n =? 160))%nat.

Fixpoint lstrip (s : string) : string :=
  match s with
  | EmptyString => EmptyString
  | String c s' => if isspace c then lstrip s' else s
  end.

Fixpoint rstrip (s : string) : string :=
  match s with
  | EmptyString => EmptyString
  | String c s' =>
      match rstrip s' with
      | EmptyString => if isspace c then EmptyString else String c EmptyString
      | r => String c r
      end
  end.

(** [s.strip()] *)
Definition strip (s : string) : string := rstrip (lstrip s).

(** [c.lower()] on U+0000..U+00FF: A..Z, and the capital letters of the
    Latin-1 supplement (0xC0..0xDE but the multiplication sign 0xD7). *)
Definition lower_char (c : ascii) : ascii :=
  let n := nat_of_ascii c in
  if (((65 <=? n) && (n <=? 90))
      || ((192 <=? n) && (n <=? 222) && negb (n =? 215)))%nat
  then ascii_of_nat (n + 32) else c.

(** [s.lower()] *)
Fixpoint lower (s : string) : string :=
  match s with
  | EmptyString => EmptyString
  | String c s' => String (lower_char c) (lower s')
  end.

(** [sep.join(l)] *)
Definition join (sep : string) (l : list string) : string := String.concat sep l.

(** [s.split(sep)] for a separator of one character: every occurrence
    cuts, empty pieces are kept, and the empty string gives one empty piece. *)
Fixpoint split (sep : ascii) (s : string) : list string :=
  match s with
  | EmptyString => [EmptyString]
  | String c s' =>
      if Ascii.eqb c sep then EmptyString :: split sep s'
      else match split sep s' with
           | p :: ps => String c p :: ps
           | [] => [String c EmptyString]
           end
  end.

(** [s.rfind(c)] for one character: the last index of [c], or [-1].
    [rfind_from c s i] numbers the characters of [s] from [i]. *)
Fixpoint rfind_from (c : ascii) (s : string) (i : Z) : Z :=
  match s with
  | EmptyString => (-1)%Z
  | String a s' =>
      let r := rfind_from c s' (i + 1)%Z in
      if (0 <=? r)%Z then r else if Ascii.eqb a c then i else (-1)%Z
  end.

Definition rfind (c : ascii) (s : string) : Z := rfind_from c s 0%Z.

(** Slices [s[:i]] and [s[i:]] for [0 <= i]. *)
Fixpoint take (n : nat) (s : string) : string :=
  match n, s with
  | S n', String c s' => String c (take n' s')
  | _, _ => EmptyString
  end.

Fixpoint drop (n : nat) (s : string) : string :=
  match n, s with
  | S n', String _ s' => drop n' s'
  | _, _ => s
  end.

(** [s[i:i+1]]: the character at [i] as a string, empty out of range. *)
Definition char_at (i : nat) (s : string) : string := take 1 (drop i s).

(** [genericpath._splitext(p, '/', None, '.')]:
<<
    sepIndex = p.rfind(sep)
    dotIndex = p.rfind(extsep)
    if dotIndex > sepIndex:
        filenameIndex = sepIndex + 1
        while filenameIndex < dotIndex:
            if p[filenameIndex:filenameIndex+1] != extsep:
                return p[:dotIndex], p[dotIndex:]
            filenameIndex += 1
    return p, p[:0]
>>
    The loop runs at most [dotIndex - filenameIndex] times, which is the
    [steps] argument of [skip_leading_dots]. *)
Fixpoint skip_leading_dots (p : string) (dotIndex : nat) (steps : nat)
         (filenameIndex : nat) : string * string :=
  match steps with
  | O => (p, EmptyString)
  | S steps' =>
      if negb (String.eqb (char_at filenameIndex p) ".")
      then (take dotIndex p, drop dotIndex p)
      else skip_leading_dots p dotIndex steps' (S filenameIndex)
  end.

Definition splitext (p : string) : string * string :=
  let sepIndex := rfind "/" p in
  let dotIndex := rfind "." p in
  if (sepIndex <? dotIndex)%Z then
    let filenameIndex := (sepIndex + 1)%Z in
    skip_leading_dots p (Z.to_nat dotIndex)
                      (Z.to_nat (dotIndex - filenameIndex))
                      (Z.to_nat filenameIndex)
  else (p, EmptyString).

(** [s * n] *)
Fixpoint repeat (s : string) (n : nat) : string :=
  match n with
  | O => EmptyString
  | S n' => s ++ repeat s n'
  end.

(** [posixpath.join(a, b)] *)
Definition path_join (a b : string) : string :=
  if startswith "/" b then b
  else if String.eqb a "" || endswith "/" a then a ++ b
  else a ++ "/" ++ b.

End PyStr.

(* ================================================================== *)
(** ** Values *)

(** What [json.loads] returns.  A JSON object is a Python [dict], kept as the
    list of its items; real numbers are left out (nothing below depends on
    how Python prints or compares them). *)
Module Json.

#[warnings="-register-all"]
Inductive json : Type :=
| JNull
| JBool (b : bool)
| JInt (z : Z)
| JStr (s : string)
| JArr (items : list json)
| JObj (items : list (string * json)).

(** [d.get(key, default)] *)
Fixpoint dict_get (key : string) (default : json) (d : list (string * json)) : json :=
  match d with
  | [] => default
  | (k, v) :: d' => if String.eqb k key then v else dict_get key default d'
  end.

(** [bool(v)], the test of [if v:]. *)
Definition truthy (v : json) : bool :=
  match v with
  | JNull => false
  | JBool b => b
  | JInt z => negb (z =? 0)%Z
  | JStr s => negb (String.eqb s "")
  | JArr items => negb (Nat.eqb (List.length items) 0)
  | JObj items => negb (Nat.eqb (List.length items) 0)
  end.

(** [needle in v] for a string [needle]: substring of a string, element of
    a list, key of a dict; [None] where Python raises [TypeError]. *)
Definition py_in (needle : string) (v : json) : option bool :=
  match v with
  | JStr s => Some (PyStr.contains needle s)
  | JArr items =>
      Some (existsb (fun e => match e with
                              | JStr s => String.eqb needle s
                              | _ => false
                              end) items)
  | JObj items => Some (existsb (fun kv => String.eqb needle (fst kv)) items)
  | JNull | JBool _ | JInt _ => None
  end.

End Json.

(** The scalar found in a cell of a row that [DataFrame.iterrows] yields. *)
Module Cell.

Inductive cell : Type :=
| CNone                 (* None *)
| CNaN                  (* float('nan'), pandas' missing value *)
| CStr (s : string)
| CInt (z : Z)
| CBool (b : bool).

(** [pd.notna(value)] *)
Definition notna (v : cell) : bool :=
  match v with
  | CNone | CNaN => false
  | _ => true
  end.

(** [a == b] *)
Definition py_eq (a b : cell) : bool :=
  match a, b with
  | CNone, CNone => true
  | CStr s, CStr t => String.eqb s t
  | CInt x, CInt y => (x =? y)%Z
  | CBool x, CBool y => Bool.eqb x y
  | CInt x, CBool y | CBool y, CInt x => (x =? (if y then 1 else 0))%Z
  | _, _ => false
  end.

(** [value in l] for a list literal [l] *)
Definition py_in_list (v : cell) (l : list cell) : bool := existsb (py_eq v) l.

(** [str(value)] *)
Definition str (v : cell) : string :=
  match v with
  | CNone => "None"
  | CNaN => "nan"
  | CStr s => s
  | CInt z => PyStr.str_int z
  | CBool b => PyStr.str_bool b
  end.

Definition row : Type := list cell.

(** A [DataFrame]: the column labels and the rows, in order. *)
Record table : Type := Table { columns : row; rows : list row }.

End Cell.

(* ================================================================== *)
(** ** Effects *)

Module Eff.

Import Json.

Inductive level : Type := INFO | WARNING | ERROR.

(** The exceptions of a run: those of [requests.exceptions.RequestException],
    which the model client catches, and all other [Exception]s.  Each
    carries the text of [str(e)]. *)
Inductive exn : Type :=
| RequestException (msg : string)
| OtherException (msg : string).

Definition exn_str (e : exn) : string :=
  match e with
  | RequestException msg | OtherException msg => msg
  end.

(** What the program does to the outside, in the order it does it.
    [EvPrint] holds the line written by [print], without its final newline;
    [EvLog] the level and message handed to [logging]. *)
Inductive event : Type :=
| EvGet (url : string) (timeout : nat)
| EvPost (url : string) (payload : json) (timeout : nat)
| EvSleep (seconds : nat)
| EvListdir (path : string)
| EvReadCsv (path : string) (skiprows : nat)
| EvReadExcel (path : string) (skiprows : nat)
| EvLog (lvl : level) (msg : string)
| EvPrint (text : string).

Inductive res (A : Type) : Type :=
| Ok (a : A)
| Raised (e : exn).
Arguments Ok {A} a.
Arguments Raised {A} e.

(** A computation takes the number of POST requests sent so far and gives
    its result, the events it caused and the new number of requests. *)
Definition M (A : Type) : Type := nat -> res A * list event * nat.

Definition ret {A} (a : A) : M A := fun n => (Ok a, [], n).

Definition raise {A} (e : exn) : M A := fun n => (Raised e, [], n).

Definition bind {A B} (c : M A) (k : A -> M B) : M B :=
  fun n =>
    match c n with
    | (Ok a, evs, n') =>
        match k a n' with
        | (r, evs', n'') => (r, evs ++ evs', n'')
        end
    | (Raised e, evs, n') => (Raised e, evs, n')
    end.

Definition emit (e : event) : M unit := fun n => (Ok tt, [e], n).

(** [try: c  except ...: handler e], where [handler] is [None] on the
    exceptions the clause does not match. *)
Definition try_except {A} (c : M A) (handler : exn -> option (M A)) : M A :=
  fun n =>
    match c n with
    | (Ok a, evs, n') => (Ok a, evs, n')
    | (Raised e, evs, n') =>
        match handler e with
        | Some h =>
            match h n' with
            | (r, evs', n'') => (r, evs ++ evs', n'')
            end
        | None => (Raised e, evs, n')
        end
    end.

Definition result_of {A} (x : res A * list event * nat) : res A := fst (fst x).
Definition trace_of {A} (x : res A * list event * nat) : list event := snd (fst x).
Definition sent_of {A} (x : res A * list event * nat) : nat := snd x.

End Eff.

Notation "x <- c ;; k" := (Eff.bind c (fun x => k))
  (at level 61, c at next level, right associativity).
Notation "c ;;; k" := (Eff.bind c (fun _ => k))
  (at level 61, right associativity).

(* ================================================================== *)
(** ** The environment of a run *)

Module Env.

Import Json Cell Eff.

Record response : Type := Response { status_code : Z; text : string }.

(** The outcome of one HTTP request: a [RequestException] with its text, or
    a response. *)
Inductive http_outcome : Type :=
| Fails (msg : string)
| Answers (r : response).

(** The records of a file as the pandas parser delivers them (one list of
    cells per line), or the text of the exception raised when it cannot. *)
Definition records : Type := string + list row.

Record world : Type := World {
  path_exists : string -> bool;              (* os.path.exists *)
  listdir : string -> string + list string;  (* os.listdir, or its OSError *)
  csv_records : string -> records;
  excel_records : string -> records;
  probe : http_outcome;                      (* the GET of the liveness check *)
  post : nat -> http_outcome                 (* the k-th POST of the run *)
}.

(** The parts of the Python runtime the program calls and this development
    does not define: the JSON parser (with the text of its
    [JSONDecodeError]), [repr] of a value that is not a [str], and the texts
    of the [AttributeError] of [v.get] and of the [TypeError] of [s in v]. *)
Record runtime : Type := Runtime {
  json_loads : string -> string + json;
  py_repr : json -> string;
  no_get_text : json -> string;
  not_iterable_text : json -> string
}.

End Env.

(* ================================================================== *)
(** ** The program *)

Module Scanner.

Import Json Cell Eff Env.

Definition OLLAMA_URL : string := "http://localhost:11434/api/generate".
Definition OLLAMA_MODEL : string := "llama3".
Definition DATA_FOLDER : string := "Data".
Definition CHUNK_SIZE : nat := 1000.

Definition PII_DEFINITIONS : string :=
  PyStr.nl ++
  "Personally Identifiable Information (PII) includes:" ++ PyStr.nl ++
  "- Full names" ++ PyStr.nl ++
  "- Addresses (street, city, postal code)" ++ PyStr.nl ++
  "- Phone numbers" ++ PyStr.nl ++
  "- Email addresses" ++ PyStr.nl ++
  "- Social security numbers (SSNs) or national ID numbers" ++ PyStr.nl ++
  "- Credit card numbers" ++ PyStr.nl ++
  "- Bank account numbers" ++ PyStr.nl ++
  "- Dates of birth" ++ PyStr.nl ++
  "- Any sensitive data that uniquely identifies an individual" ++ PyStr.nl.

(** The list literal [[None, "", "nan", "NaN", "NAN"]] of
    [extract_non_null_data]. *)
Definition EMPTY_VALUES : list cell :=
  [CNone; CStr ""; CStr "nan"; CStr "NaN"; CStr "NAN"].

(** The inner loop of [extract_non_null_data], over the values of a row. *)
Definition extract_row (non_null_data : list string) (r : row) : list string :=
  fold_left
    (fun acc value =>
       if notna value && negb (py_in_list value EMPTY_VALUES)
       then acc ++ [PyStr.strip (Cell.str value)]
       else acc)
    r non_null_data.

(** [extract_non_null_data(chunk)]: [chunk] is the list of the rows that
    [chunk.iterrows()] yields. *)
Definition extract_non_null_data (chunk : list row) : list string :=
  fold_left extract_row chunk [].

(** The f-string of the prompt; the two copies in the source differ by
    their indentation only (12 spaces in [scan_chunk_with_llm], 8 in
    [process_file]). *)
Definition prompt_template (indent : nat) (dataset_text : string) : string :=
  let ind := PyStr.repeat " " indent in
  PyStr.nl ++
  ind ++ "Detect any Personally Identifiable Information (PII) as per the PII Categories in the dataset. " ++ PyStr.nl ++
  ind ++ "If PII is found, list it." ++ PyStr.nl ++
  ind ++ "If no PII is found, respond with: 'No PII detected.'" ++ PyStr.nl ++
  ind ++ "Do not describe or analyze the dataset." ++ PyStr.nl ++
  PyStr.nl ++
  ind ++ "PII Categories:" ++ PyStr.nl ++
  ind ++ PII_DEFINITIONS ++ PyStr.nl ++
  PyStr.nl ++
  ind ++ "Dataset:" ++ PyStr.nl ++
  ind ++ dataset_text ++ PyStr.nl ++
  ind.

(** [range(start, stop, step)] for [step >= 1], as the loop
    [i = start; while i < stop: yield i; i += step], which yields at most
    [stop - start] values. *)
Fixpoint range_loop (fuel i stop step : nat) : list nat :=
  match fuel with
  | O => []
  | S fuel' =>
      if (i <? stop)%nat then i :: range_loop fuel' (i + step) stop step else []
  end.

Definition py_range (start stop step : nat) : list nat :=
  range_loop (stop - start) start stop step.

(** [df.iloc[i : j]] on the rows, for [i <= j]: a slice is cut at the end
    of the table. *)
Definition iloc (rows : list row) (i j : nat) : list row :=
  firstn (j - i) (skipn i rows).

(** The U+1F680 of the detection banner, in UTF-8. *)
Definition rocket : string :=
  String (PyStr.chr 240) (String (PyStr.chr 159)
    (String (PyStr.chr 154) (String (PyStr.chr 128) ""))).

Fixpoint for_each {A} (l : list A) (body : A -> M unit) : M unit :=
  match l with
  | [] => ret tt
  | x :: l' => body x ;;; for_each l' body
  end.

Section Program.

Variable rt : runtime.
Variable w : world.

Definition log (lvl : level) (msg : string) : M unit := emit (EvLog lvl msg).
Definition print (text : string) : M unit := emit (EvPrint text).
Definition sleep (seconds : nat) : M unit := emit (EvSleep seconds).

(** [str(v)] *)
Definition py_str (v : json) : string :=
  match v with
  | JStr s => s
  | _ => py_repr rt v
  end.

(** [requests.get(url, timeout=...)] *)
Definition requests_get (url : string) (timeout : nat) : M response :=
  fun n =>
    match probe w with
    | Fails msg => (Raised (RequestException msg), [EvGet url timeout], n)
    | Answers r => (Ok r, [EvGet url timeout], n)
    end.

(** [requests.post(url, headers=..., json=payload, timeout=...)] *)
Definition requests_post (url : string) (payload : json) (timeout : nat)
  : M response :=
  fun n =>
    match post w n with
    | Fails msg => (Raised (RequestException msg), [EvPost url payload timeout], S n)
    | Answers r => (Ok r, [EvPost url payload timeout], S n)
    end.

(** [json.loads(text)] *)
Definition loads (text : string) : M json :=
  match json_loads rt text with
  | inl msg => raise (OtherException msg)
  | inr v => ret v
  end.

(** [v.get(key, default)] *)
Definition get (v : json) (key : string) (default : json) : M json :=
  match v with
  | JObj items => ret (dict_get key default items)
  | _ => raise (OtherException (no_get_text rt v))
  end.

(** [os.listdir(path)] *)
Definition os_listdir (path : string) : M (list string) :=
  fun n =>
    match listdir w path with
    | inl msg => (Raised (OtherException msg), [EvListdir path], n)
    | inr entries => (Ok entries, [EvListdir path], n)
    end.

(** [pd.read_csv(path, skiprows=k)]: [k] lines are skipped, the next one
    gives the column labels (the default [header=0]), the others are the
    rows; a file with no line left raises [EmptyDataError]. *)
Definition read_csv (path : string) (skiprows : nat) : M table :=
  fun n =>
    (match csv_records w path with
     | inl msg => Raised (OtherException msg)
     | inr lines =>
         match skipn skiprows lines with
         | [] => Raised (OtherException "No columns to parse from file")
         | header :: data => Ok (Table header data)
         end
     end, [EvReadCsv path skiprows], n).

(** [pd.read_excel(path, skiprows=k)]: as [read_csv], but a sheet with
    no line left gives an empty table. *)
Definition read_excel (path : string) (skiprows : nat) : M table :=
  fun n =>
    (match excel_records w path with
     | inl msg => Raised (OtherException msg)
     | inr lines =>
         match skipn skiprows lines with
         | [] => Ok (Table [] [])
         | header :: data => Ok (Table header data)
         end
     end, [EvReadExcel path skiprows], n).

(** [check_ollama_server()] *)
Definition check_ollama_server : M bool :=
  try_except
    (response <- requests_get "http://localhost:11434" 10 ;;
     ret (status_code response =? 200)%Z)
    (fun e => match e with
              | RequestException _ => Some (ret false)
              | OtherException _ => None
              end).

(** The [try] block of [scan_chunk_with_llm]; both its branches return. *)
Definition request_verdict (chunk : list row) : M (option json) :=
  let non_null_data := extract_non_null_data chunk in
  let dataset_text := PyStr.join " " non_null_data in
  let prompt := prompt_template 12 dataset_text in
  let payload := JObj [("model", JStr OLLAMA_MODEL);
                       ("prompt", JStr prompt);
                       ("stream", JBool false)] in
  log INFO ("Sending request to Ollama server: " ++ py_repr rt payload) ;;;
  response <- requests_post OLLAMA_URL payload 300 ;;
  log INFO ("Response status code: " ++ PyStr.str_int (status_code response)) ;;;
  if (status_code response =? 200)%Z then
    body <- loads (text response) ;;
    verdict <- get body "response" (JStr "") ;;
    ret (Some verdict)
  else
    log ERROR ("Error from LLM: " ++ PyStr.str_int (status_code response)
               ++ " - " ++ text response) ;;;
    ret None.

(** The loop [for attempt in range(retries)] of [scan_chunk_with_llm],
    over the attempts still to make; a loop that runs out returns
    [None]. *)
Fixpoint scan_attempts (chunk : list row) (retries delay : nat)
         (attempts : list nat) : M (option json) :=
  match attempts with
  | [] => ret None
  | attempt :: attempts' =>
      try_except (request_verdict chunk)
        (fun e =>
           match e with
           | RequestException _ =>
               Some (log ERROR ("Attempt " ++ PyStr.str_nat (attempt + 1)
                                ++ " failed: " ++ exn_str e) ;;;
                     if (attempt <? retries - 1)%nat then
                       sleep (delay * (attempt + 1)) ;;;
                       scan_attempts chunk retries delay attempts'
                     else ret None)
           | OtherException _ => None
           end)
  end.

(** [scan_chunk_with_llm(chunk, retries=5, delay=5)] *)
Definition scan_chunk_with_llm (chunk : list row) (retries delay : nat)
  : M (option json) :=
  scan_attempts chunk retries delay (py_range 0 retries 1).

(** The rows label [(Rows {i}-{i + CHUNK_SIZE - 1})] of the reports. *)
Definition rows_label (i : nat) : string :=
  "(Rows " ++ PyStr.str_nat i ++ "-" ++ PyStr.str_nat (i + CHUNK_SIZE - 1) ++ ")".

(** The body of [if result:] in [process_file], lines 139 to 145. *)
Definition report (file_path : string) (i : nat) (result : option json) : M unit :=
  match result with
  | None => ret tt
  | Some v =>
      if truthy v then
        match py_in "No PII detected" v with
        | None => raise (OtherException (not_iterable_text rt v))
        | Some true =>
            print ("No PII detected in " ++ file_path ++ " " ++ rows_label i ++ ".") ;;;
            log INFO ("No PII detected in " ++ file_path ++ " " ++ rows_label i ++ ".")
        | Some false =>
            print (PyStr.nl ++ rocket ++ " Detected PII in " ++ file_path ++ " "
                   ++ rows_label i ++ ":" ++ PyStr.nl ++ " " ++ py_str v) ;;;
            log INFO ("PII detected in " ++ file_path ++ " " ++ rows_label i
                      ++ ": " ++ py_str v)
        end
      else ret tt
  end.

(** The first statements of [process_file]: the table of the file, or
    [None] when the function returns on an unsupported format. *)
Definition load (file_path : string) : M (option table) :=
  let file_extension := PyStr.lower (snd (PyStr.splitext file_path)) in
  if String.eqb file_extension ".csv" then
    df <- read_csv file_path 1 ;; ret (Some df)
  else if existsb (String.eqb file_extension) [".xls"; ".xlsx"] then
    df <- read_excel file_path 1 ;; ret (Some df)
  else
    log WARNING ("Unsupported file format: " ++ file_path) ;;;
    ret None.

(** The loop over the chunks of [process_file] ([tqdm] only draws a
    progress bar around [range]). *)
Definition scan_table (file_path : string) (df : table) : M unit :=
  for_each (py_range 0 (List.length (rows df)) CHUNK_SIZE)
    (fun i =>
       let chunk := iloc (rows df) i (i + CHUNK_SIZE) in
       result <- scan_chunk_with_llm chunk 5 5 ;;
       report file_path i result).

(** [process_file(file_path)] *)
Definition process_file (file_path : string) : M unit :=
  try_except
    (loaded <- load file_path ;;
     match loaded with
     | None => ret tt
     | Some df =>
         log INFO ("Processing file: " ++ file_path ++ " - "
                   ++ PyStr.str_nat (List.length (rows df)) ++ " rows") ;;;
         let first_chunk := iloc (rows df) 0 CHUNK_SIZE in
         let non_null_data := extract_non_null_data first_chunk in
         let dataset_text := PyStr.join " " non_null_data in
         let prompt := prompt_template 8 dataset_text in
         print (PyStr.nl ++ PyStr.repeat "=" 80) ;;;
         print ("Prompt for Rows 0 to " ++ PyStr.str_nat (CHUNK_SIZE - 1) ++ ":") ;;;
         print prompt ;;;
         print (PyStr.repeat "=" 80 ++ PyStr.nl) ;;;
         scan_table file_path df
     end)
    (fun e => Some (log ERROR ("Error processing " ++ file_path ++ ": " ++ exn_str e))).

(** The filter of [main]: [f.endswith((".csv", ".xls", ".xlsx"))]. *)
Definition is_dataset (f : string) : bool :=
  PyStr.endswith_any [".csv"; ".xls"; ".xlsx"] f.

(** [main()] *)
Definition main : M unit :=
  if negb (path_exists w DATA_FOLDER) then
    log ERROR ("Data folder '" ++ DATA_FOLDER ++ "' not found!")
  else
    up <- check_ollama_server ;;
    if negb up then
      log ERROR "Ollama server is not running or inaccessible!" ;;;
      print "Ollama server is not running or inaccessible!"
    else
      entries <- os_listdir DATA_FOLDER ;;
      let files := filter is_dataset entries in
      match files with
      | [] =>
          log INFO "No datasets found in the Data folder." ;;;
          print "No datasets found."
      | _ =>
          for_each files (fun file => process_file (PyStr.path_join DATA_FOLDER file))
      end.

End Program.

End Scanner.

(* ================================================================== *)
(** ** Observations on a run, and the statements of the specification *)

Module Spec.

Import Json Cell Eff Env Scanner.

(** The seconds slept, in order, and the POST requests of a trace. *)
Definition sleeps (evs : list event) : list nat :=
  flat_map (fun e => match e with EvSleep s => [s] | _ => [] end) evs.

Definition is_post (e : event) : bool :=
  match e with EvPost _ _ _ => true | _ => false end.

Definition posts (evs : list event) : list event := filter is_post evs.

(** The events that touch the input folder or one of its files. *)
Definition is_file_event (e : event) : bool :=
  match e with
  | EvListdir _ | EvReadCsv _ _ | EvReadExcel _ _ | EvPost _ _ _ => true
  | _ => false
  end.

(** The text an event shows on the console or in the log. *)
Definition event_text (e : event) : string :=
  match e with
  | EvLog _ msg => msg
  | EvPrint text => text
  | _ => ""
  end.

(** *** Reporter *)

(** What the reporter emits for a clean chunk and for a flagged one. *)
Definition clean_lines (file_path : string) (i : nat) : list event :=
  let line := ("No PII detected in " ++ file_path ++ " " ++ rows_label i ++ ".")%string in
  [EvPrint line; EvLog INFO line].

Definition flagged_lines (file_path : string) (i : nat) (verdict : string)
  : list event :=
  [EvPrint (PyStr.nl ++ rocket ++ " Detected PII in " ++ file_path ++ " "
            ++ rows_label i ++ ":" ++ PyStr.nl ++ " " ++ verdict);
   EvLog INFO ("PII detected in " ++ file_path ++ " " ++ rows_label i
               ++ ": " ++ verdict)].

(** *** Chunker *)

(** The chunks of the loop of [process_file], and the first and last row
    index of each. *)
Definition chunks (size : nat) (rows : list row) : list (list row) :=
  map (fun i => iloc rows i (i + size)) (py_range 0 (List.length rows) size).

Definition row_ranges (size : nat) (rows : list row) : list (nat * nat) :=
  map (fun i => (i, i + List.length (iloc rows i (i + size)) - 1))
      (py_range 0 (List.length rows) size).

(** *** Flattener, in the words of the specification *)

Definition SENTINELS : list string := [""; "nan"; "NaN"; "NAN"].

Definition is_sentinel (s : string) : bool := existsb (String.eqb s) SENTINELS.

(** A cell survives when it is not missing and its text is no sentinel. *)
Definition survives (v : cell) : bool :=
  notna v && negb (is_sentinel (Cell.str v)).

(** Row-major visit, skip, stringify and trim. *)
Definition flatten_tokens (chunk : list row) : list string :=
  map (fun v => PyStr.strip (Cell.str v)) (filter survives (concat chunk)).

Definition flatten_text (chunk : list row) : string :=
  PyStr.join " " (flatten_tokens chunk).

(** The test of [extract_non_null_data] on a value. *)
Definition kept (value : cell) : bool :=
  notna value && negb (py_in_list value EMPTY_VALUES).

(** A text that does not start with white space. *)
Definition starts_trimmed (s : string) : bool :=
  match s with
  | EmptyString => true
  | String c _ => negb (PyStr.isspace c)
  end.

(** The chunk of one column built from a list of tokens. *)
Definition single_column (tokens : list string) : list row :=
  map (fun t => [CStr t]) tokens.

(** Flatten, split the text on spaces, rebuild a chunk, flatten again. *)
Definition reflatten (chunk : list row) : list string :=
  extract_non_null_data
    (single_column (PyStr.split " " (PyStr.join " " (extract_non_null_data chunk)))).

Definition has_space (s : string) : bool := PyStr.contains " " s.

(** *** Model client *)

Definition fails (o : http_outcome) : bool :=
  match o with Fails _ => true | Answers _ => false end.

Definition failure_text (o : http_outcome) : string :=
  match o with Fails msg => msg | Answers _ => "" end.

(** The JSON body of the request for a chunk. *)
Definition payload_of (chunk : list row) : json :=
  JObj [("model", JStr OLLAMA_MODEL);
        ("prompt", JStr (prompt_template 12
                           (PyStr.join " " (extract_non_null_data chunk))));
        ("stream", JBool false)].

(** The events of sending the request of a chunk. *)
Definition request_events (rt : runtime) (chunk : list row) : list event :=
  [EvLog INFO ("Sending request to Ollama server: " ++ py_repr rt (payload_of chunk));
   EvPost OLLAMA_URL (payload_of chunk) 300].

(** The events of an attempt that ends in a transport failure. *)
Definition failed_attempt (rt : runtime) (chunk : list row) (retries delay : nat)
           (attempt : nat) (msg : string) : list event :=
  request_events rt chunk
  ++ [EvLog ERROR ("Attempt " ++ PyStr.str_nat (attempt + 1) ++ " failed: " ++ msg)]
  ++ (if (attempt <? retries - 1)%nat then [EvSleep (delay * (attempt + 1))] else []).

(** The events of the attempts [first], [first + 1], ... ([count] of them),
    all failing, the POST requests being numbered from [n]. *)
Fixpoint failed_attempts (rt : runtime) (w : world) (chunk : list row)
         (retries delay : nat) (n first count : nat) : list event :=
  match count with
  | O => []
  | S count' =>
      failed_attempt rt chunk retries delay first (failure_text (post w n))
      ++ failed_attempts rt w chunk retries delay (S n) (S first) count'
  end.

(** What the client makes of a response: its result, and the events after
    the request. *)
Definition response_result (rt : runtime) (r : response) : res (option json) :=
  if (status_code r =? 200)%Z then
    match json_loads rt (text r) with
    | inl msg => Raised (OtherException msg)
    | inr (JObj items) => Ok (Some (dict_get "response" (JStr "") items))
    | inr v => Raised (OtherException (no_get_text rt v))
    end
  else Ok None.

Definition response_events (r : response) : list event :=
  EvLog INFO ("Response status code: " ++ PyStr.str_int (status_code r))
  :: (if (status_code r =? 200)%Z then []
      else [EvLog ERROR ("Error from LLM: " ++ PyStr.str_int (status_code r)
                         ++ " - " ++ text r)]).

(** *** Loader *)

Inductive format : Type := Csv | Excel | Unsupported.

(** The format [process_file] selects for a path. *)
Definition format_of (file_path : string) : format :=
  let file_extension := PyStr.lower (snd (PyStr.splitext file_path)) in
  if String.eqb file_extension ".csv" then Csv
  else if existsb (String.eqb file_extension) [".xls"; ".xlsx"] then Excel
  else Unsupported.

(** *** Concrete environments for the examples *)

Definition demo_runtime : runtime :=
  Runtime (fun body => inr (JObj [("response", JStr body)]))
          (fun _ => "{...}")
          (fun _ => "object has no attribute 'get'")
          (fun _ => "argument is not iterable").

Definition refusing : http_outcome := Fails "Connection refused".

(** A folder with the given entries, one CSV content for every path, a
    server whose probe and POST outcomes are given. *)
Definition demo_world (entries : list string) (lines : list row)
           (probe_outcome : http_outcome) (posts : nat -> http_outcome) : world :=
  World (fun _ => true) (fun _ => inr entries)
        (fun _ => inr lines) (fun _ => inr lines)
        probe_outcome posts.

(** *** Trimming and joining, in the words of the specification *)

(** The white space of the code points U+0000 to U+00FF. *)
Definition white_codes : list nat := [9; 10; 11; 12; 13; 28; 29; 30; 31; 32; 133; 160].

Definition is_white (c : ascii) : bool :=
  existsb (Nat.eqb (nat_of_ascii c)) white_codes.

Fixpoint all_white (s : string) : bool :=
  match s with
  | EmptyString => true
  | String c s' => is_white c && all_white s'
  end.

Definition starts_white (s : string) : bool :=
  match s with
  | EmptyString => false
  | String c _ => is_white c
  end.

Fixpoint ends_white (s : string) : bool :=
  match s with
  | EmptyString => false
  | String c s' =>
      match s' with
      | EmptyString => is_white c
      | String _ _ => ends_white s'
      end
  end.

(** [t] is [s] without the white space at its two ends. *)
Definition trimmed_from (s t : string) : Prop :=
  exists l r,
    s = (l ++ t ++ r)%string
    /\ all_white l = true /\ all_white r = true
    /\ starts_white t = false /\ ends_white t = false.

(** [text] is the tokens in order, one space between two neighbours. *)
Inductive joined_by_spaces : list string -> string -> Prop :=
| joined_none : joined_by_spaces [] ""
| joined_one (t : string) : joined_by_spaces [t] t
| joined_more (t t' : string) (ts : list string) (rest : string) :
    joined_by_spaces (t' :: ts) rest ->
    joined_by_spaces (t :: t' :: ts) (t ++ " " ++ rest).

(** A missing cell, and the text of a cell that is not missing. *)
Definition is_missing (v : cell) : bool :=
  match v with
  | CNone | CNaN => true
  | _ => false
  end.

Definition text_of (v : cell) : string :=
  match v with
  | CNone => "None"
  | CNaN => "nan"
  | CStr s => s
  | CInt z => NilZero.string_of_int (Z.to_int z)
  | CBool true => "True"
  | CBool false => "False"
  end.

(** The cells the flattener keeps: not missing, and with a text that is no
    sentinel. *)
Definition visited (v : cell) : bool :=
  negb (is_missing v) && negb (is_sentinel (text_of v)).

(** The twelve spaces before the dataset line of the prompt of a request. *)
Definition request_indent : string := "            ".

End Spec.

(* ================================================================== *)
(** ** Whole runs *)

Module Runs.

Import Json Cell Eff Env Scanner Spec.

(** What [process_file] emits between loading a table and scanning it: the
    log entry of the file and the preview of the prompt of the first
    chunk. *)
Definition file_header_events (file_path : string) (rows : list row) : list event :=
  [EvLog INFO ("Processing file: " ++ file_path ++ " - "
               ++ PyStr.str_nat (List.length rows) ++ " rows");
   EvPrint (PyStr.nl ++ PyStr.repeat "=" 80);
   EvPrint ("Prompt for Rows 0 to " ++ PyStr.str_nat (CHUNK_SIZE - 1) ++ ":");
   EvPrint (prompt_template 8
              (PyStr.join " " (extract_non_null_data (iloc rows 0 CHUNK_SIZE))));
   EvPrint (PyStr.repeat "=" 80 ++ PyStr.nl)].

(** The entry [process_file] logs for an exception. *)
Definition file_error_event (file_path : string) (e : exn) : event :=
  EvLog ERROR ("Error processing " ++ file_path ++ ": " ++ exn_str e).

(** The lines of the reporter for a Verdict that is a string. *)
Definition report_lines (file_path : string) (i : nat) (verdict : string)
  : list event :=
  if String.eqb verdict "" then []
  else if PyStr.contains "No PII detected" verdict
       then clean_lines file_path i
       else flagged_lines file_path i verdict.

(** The response of an answered request, and the string in the "response"
    field of its body (empty when there is none). *)
Definition answer_of (o : http_outcome) : response :=
  match o with
  | Answers r => r
  | Fails _ => Response 0 ""
  end.

Definition verdict_text (rt : runtime) (r : response) : string :=
  match json_loads rt (text r) with
  | inr (JObj items) =>
      match dict_get "response" (JStr "") items with
      | JStr verdict => verdict
      | _ => ""
      end
  | _ => ""
  end.

(** A request that is answered at once with status 200 and a string
    Verdict. *)
Definition answered_with_text (rt : runtime) (o : http_outcome) : Prop :=
  exists r items verdict,
    o = Answers r
    /\ status_code r = 200%Z
    /\ json_loads rt (text r) = inr (JObj items)
    /\ dict_get "response" (JStr "") items = JStr verdict.

(** The events of scanning the chunks that start at [starts], when each
    request is answered at once: per chunk the request, the status entry and
    the lines of the reporter.  The POST requests are numbered from [n]. *)
Fixpoint answered_scan (rt : runtime) (w : world) (file_path : string)
         (rows : list row) (starts : list nat) (n : nat) : list event :=
  match starts with
  | [] => []
  | i :: starts' =>
      request_events rt (iloc rows i (i + CHUNK_SIZE))
      ++ response_events (answer_of (post w n))
      ++ report_lines file_path i (verdict_text rt (answer_of (post w n)))
      ++ answered_scan rt w file_path rows starts' (S n)
  end.

(** A computation sends at most [budget] POST requests: the counter of
    requests grows by the number of POST events, which is at most
    [budget]. *)
Definition sends_at_most {A : Type} (budget : nat) (c : M A) : Prop :=
  forall n,
    sent_of (c n) = n + List.length (posts (trace_of (c n)))
    /\ List.length (posts (trace_of (c n))) <= budget.

(** The requests a run may send: the probe of the server root with a
    timeout of 10 seconds, and generation requests to [OLLAMA_URL] with a
    timeout of 300 seconds, the fixed model and streaming off; it sleeps at
    most 20 seconds at a time. *)
Definition allowed_event (e : event) : Prop :=
  match e with
  | EvGet url timeout => url = "http://localhost:11434" /\ timeout = 10
  | EvPost url payload timeout =>
      url = OLLAMA_URL /\ timeout = 300
      /\ exists prompt,
           payload = JObj [("model", JStr OLLAMA_MODEL);
                           ("prompt", JStr prompt);
                           ("stream", JBool false)]
  | EvSleep seconds => seconds <= 20
  | EvListdir path => path = DATA_FOLDER
  | EvReadCsv _ skiprows | EvReadExcel _ skiprows => skiprows = 1
  | EvLog _ _ | EvPrint _ => True
  end.

(** Every event of a computation satisfies [P]. *)
Definition only_emits {A : Type} (P : event -> Prop) (c : M A) : Prop :=
  forall n, Forall P (trace_of (c n)).

(** A name made of dots only. *)
Fixpoint all_dots (s : string) : bool :=
  match s with
  | EmptyString => true
  | String c s' => Ascii.eqb c "." && all_dots s'
  end.

(** *** Concrete environments for the examples *)

(** A server that is up, and one that answers every request with a clean
    Verdict. *)
Definition server_up : http_outcome :=
  Answers (Response 200 "Ollama is running").

Definition always_clean (k : nat) : http_outcome :=
  Answers (Response 200 "No PII detected.").

Definition three_lines : list row :=
  [[CStr "export"]; [CStr "name"; CStr "age"];
   [CStr "Ann"; CInt 31]].

End Runs.

(* ================================================================== *)
(** * Properties *)

(** ** Strings *)

Module StrFacts.

Import PyStr.
Local Open Scope string_scope.

Lemma app_empty_r (s : string) : s ++ "" = s.
Proof. induction s as [|c s IH]; simpl; congruence. Qed.

Lemma app_assoc (a b c : string) : (a ++ b) ++ c = a ++ b ++ c.
Proof. induction a as [|x a IH]; simpl; congruence. Qed.

(** [startswith] decides being a prefix. *)
Lemma startswith_spec (p s : string) :
  startswith p s = true <-> exists t, s = p ++ t.
Proof.
  revert s; induction p as [|a p IH]; intros s; simpl.
  - split; [intros _; now exists s | reflexivity].
  - destruct s as [|b s].
    + split; [discriminate | intros [t Ht]; discriminate].
    + rewrite andb_true_iff, Ascii.eqb_eq, IH. split.
      * intros [-> [t ->]]. now exists t.
      * intros [t Ht]. injection Ht as -> ->. split; [reflexivity | now exists t].
Qed.

(** [contains] decides being a substring: Python's [needle in s]. *)
Lemma contains_spec (needle s : string) :
  contains needle s = true <-> exists a b, s = a ++ needle ++ b.
Proof.
  induction s as [|c s IH]; simpl.
  - rewrite orb_false_r, startswith_spec. split.
    + intros [t Ht]. now exists "", t.
    + intros [a [b H]]. destruct a; simpl in H; [now exists b | discriminate].
  - rewrite orb_true_iff, startswith_spec, IH. split.
    + intros [[t Ht] | [a [b H]]].
      * now exists "", t.
      * exists (String c a), b. simpl. now rewrite H.
    + intros [a [b H]]. destruct a as [|x a]; simpl in H.
      * left. now exists b.
      * right. injection H as _ H. now exists a, b.
Qed.

Lemma contains_empty_haystack (needle : string) :
  needle <> "" -> contains needle "" = false.
Proof. destruct needle; [congruence | reflexivity]. Qed.

End StrFacts.

(** ** Reporter *)

Section Reporter.

Import Json Eff Env Scanner Spec.

Variable rt : runtime.

Lemma report_string (file_path : string) (i : nat) (verdict : string) (n : nat) :
  report rt file_path i (Some (JStr verdict)) n =
    (Ok tt,
     if String.eqb verdict "" then []
     else if PyStr.contains "No PII detected" verdict
          then clean_lines file_path i
          else flagged_lines file_path i verdict,
     n).
Proof.
  unfold report, truthy, py_in.
  destruct (String.eqb verdict ""); [reflexivity|].
  cbv [negb].
  destruct (PyStr.contains "No PII detected" verdict); reflexivity.
Qed.

Lemma flagged_lines_end_with_verdict (file_path : string) (i : nat) (verdict : string) :
  Forall (fun e => exists banner, event_text e = (banner ++ verdict)%string)
         (flagged_lines file_path i verdict).
Proof.
  unfold flagged_lines. repeat constructor; cbn [event_text].
  - eexists. rewrite <- !StrFacts.app_assoc. reflexivity.
  - eexists. rewrite <- !StrFacts.app_assoc. reflexivity.
Qed.

(** C1, as the code has it.  The reporter emits the clean line exactly when
    the Verdict string contains "No PII detected"; a non-empty Verdict that
    does not contain it is flagged, and both the console line and the log
    line of a flagged chunk end with the whole Verdict text; a chunk with no
    Verdict, and a chunk whose Verdict is the empty string, produce no output
    at all. *)
Theorem report_classification (file_path : string) (i n : nat) :
  (forall verdict,
      report rt file_path i (Some (JStr verdict)) n
        = (Ok tt, clean_lines file_path i, n)
      <-> PyStr.contains "No PII detected" verdict = true)
  /\ (forall verdict,
         verdict <> "" ->
         PyStr.contains "No PII detected" verdict = false ->
         report rt file_path i (Some (JStr verdict)) n
           = (Ok tt, flagged_lines file_path i verdict, n)
         /\ Forall (fun e => exists banner, event_text e = (banner ++ verdict)%string)
                   (flagged_lines file_path i verdict))
  /\ report rt file_path i None n = (Ok tt, [], n)
  /\ report rt file_path i (Some (JStr "")) n = (Ok tt, [], n).
Proof.
  repeat split.
  - rewrite report_string. intros H.
    destruct (String.eqb verdict ""); [discriminate|].
    destruct (PyStr.contains "No PII detected" verdict); [reflexivity|].
    discriminate.
  - intros H. rewrite report_string.
    destruct (String.eqb_spec verdict "") as [->|_]; [discriminate|].
    now rewrite H.
  - rewrite report_string. apply String.eqb_neq in H. now rewrite H, H0.
  - apply flagged_lines_end_with_verdict.
Qed.

End Reporter.

(** C1 as stated fails on the empty Verdict: it does not contain the marker,
    and the reporter emits nothing for it, where a flagged chunk has a console
    line and a log line. *)
Lemma report_empty_verdict_is_skipped :
  PyStr.contains "No PII detected" "" = false
  /\ Eff.trace_of (Scanner.report Spec.demo_runtime "Data/a.csv" 0
                     (Some (Json.JStr "")) 0) = []
  /\ Spec.flagged_lines "Data/a.csv" 0 "" <> [].
Proof. repeat split. discriminate. Qed.

(** ** Chunker *)

Section Chunker.

Import Cell Scanner Spec.

Variable size : nat.
Hypothesis size_pos : 0 < size.

Lemma chunks_from (A : Type) (rows : list A) (fuel i : nat) :
  List.length rows - i <= fuel ->
  concat (map (fun j => firstn (j + size - j) (skipn j rows))
              (range_loop fuel i (List.length rows) size))
  = skipn i rows.
Proof.
  revert i. induction fuel as [|fuel IH]; intros i Hfuel; simpl.
  - symmetry. apply skipn_all2. lia.
  - destruct (Nat.ltb_spec i (List.length rows)) as [Hlt|Hge].
    + simpl. rewrite IH by lia.
      replace (i + size - i) with size by lia.
      rewrite <- (firstn_skipn size (skipn i rows)) at 2.
      f_equal. rewrite skipn_skipn. f_equal. lia.
    + symmetry. apply skipn_all2. lia.
Qed.

Lemma indices_from (A : Type) (rows : list A) (fuel i : nat) :
  List.length rows - i <= fuel ->
  concat (map (fun j => seq j (List.length (firstn (j + size - j) (skipn j rows))))
              (range_loop fuel i (List.length rows) size))
  = seq i (List.length rows - i).
Proof.
  revert i. induction fuel as [|fuel IH]; intros i Hfuel; simpl.
  - replace (List.length rows - i) with 0 by lia. reflexivity.
  - destruct (Nat.ltb_spec i (List.length rows)) as [Hlt|Hge].
    + simpl. rewrite IH by lia.
      replace (i + size - i) with size by lia.
      rewrite length_firstn, length_skipn.
      destruct (Nat.le_gt_cases size (List.length rows - i)) as [Hfull|Hshort].
      * rewrite Nat.min_l by lia.
        replace (seq i (List.length rows - i))
          with (seq i (size + (List.length rows - (i + size)))) by (f_equal; lia).
        now rewrite seq_app.
      * rewrite Nat.min_r by lia.
        replace (List.length rows - (i + size)) with 0 by lia.
        simpl. now rewrite app_nil_r.
    + replace (List.length rows - i) with 0 by lia. reflexivity.
Qed.

(** Every start of the loop is a row of the table, and a chunk is short
    only when the table ends inside it. *)
Lemma range_loop_in (fuel i stop j : nat) :
  In j (range_loop fuel i stop size) -> i <= j < stop.
Proof.
  revert i. induction fuel as [|fuel IH]; intros i; simpl; [tauto|].
  destruct (Nat.ltb_spec i stop) as [Hlt|Hge]; simpl; [|tauto].
  intros [<-|Hin]; [lia|]. apply IH in Hin. lia.
Qed.

(** All the starts but the last leave room for a full chunk. *)
Lemma range_loop_full (fuel i stop : nat) (pre : list nat) (j k : nat) (post : list nat) :
  range_loop fuel i stop size = pre ++ j :: k :: post -> j + size <= stop.
Proof.
  revert i pre. induction fuel as [|fuel IH]; intros i pre; simpl.
  - destruct pre; discriminate.
  - destruct (Nat.ltb_spec i stop) as [Hlt|Hge]; [|destruct pre; discriminate].
    destruct pre as [|x pre]; simpl; intros H; injection H as -> H.
    + assert (Hin : In k (range_loop fuel (j + size) stop size))
        by (rewrite H; now left).
      apply range_loop_in in Hin. lia.
    + eapply IH; eassumption.
Qed.

End Chunker.

Section ChunkerFixedSize.

Import Cell Scanner Spec.

Lemma chunk_size_pos : 0 < CHUNK_SIZE.
Proof. unfold CHUNK_SIZE. apply Nat.lt_0_succ. Qed.

Lemma iloc_length (rows : list row) (i size : nat) :
  List.length (iloc rows i (i + size)) = Nat.min size (List.length rows - i).
Proof.
  unfold iloc. replace (i + size - i) with size by lia.
  now rewrite length_firstn, length_skipn.
Qed.

Lemma chunks_partition_any_size (size : nat) (rows : list row) :
  0 < size ->
  concat (chunks size rows) = rows
  /\ concat (map (fun i => seq i (List.length (iloc rows i (i + size))))
                 (py_range 0 (List.length rows) size))
     = seq 0 (List.length rows)
  /\ (forall pre c c' post,
         chunks size rows = pre ++ c :: c' :: post -> List.length c = size)
  /\ Forall (fun c => 0 < List.length c <= size) (chunks size rows).
Proof.
  intros Hpos. unfold chunks, py_range. repeat apply conj.
  - unfold iloc.
    rewrite (chunks_from size Hpos row rows) by lia. reflexivity.
  - unfold iloc.
    rewrite (indices_from size Hpos row rows) by lia.
    now rewrite Nat.sub_0_r.
  - intros pre c c' post H.
    apply map_eq_app in H as (lpre & ltl & Hr & _ & Htl).
    apply map_eq_cons in Htl as (j & ltl' & -> & <- & Htl).
    apply map_eq_cons in Htl as (k & lpost & -> & _ & _).
    apply (range_loop_full size Hpos) in Hr.
    rewrite iloc_length. lia.
  - apply Forall_forall. intros c Hc.
    apply in_map_iff in Hc as (j & <- & Hj).
    apply (range_loop_in size Hpos) in Hj.
    rewrite iloc_length. lia.
Qed.

Lemma chunks_of_1500 (rows : list row) :
  List.length rows = 1500 ->
  chunks CHUNK_SIZE rows = [firstn 1000 rows; skipn 1000 rows]
  /\ row_ranges CHUNK_SIZE rows = [(0, 999); (1000, 1499)].
Proof.
  intros Hlen. unfold chunks, row_ranges. rewrite Hlen.
  replace (py_range 0 1500 CHUNK_SIZE) with [0; 1000] by (vm_compute; reflexivity).
  cbn [map]. rewrite !(iloc_length rows), Hlen.
  split.
  - unfold iloc. rewrite skipn_O.
    replace (0 + CHUNK_SIZE - 0) with 1000 by (vm_compute; reflexivity).
    replace (1000 + CHUNK_SIZE - 1000) with 1000 by (vm_compute; reflexivity).
    f_equal. f_equal. apply firstn_all2. rewrite length_skipn. lia.
  - vm_compute. reflexivity.
Qed.

End ChunkerFixedSize.

(** ** Model client *)

Section Client.

Import Json Cell Eff Env Scanner Spec.

Variable rt : runtime.
Variable w : world.

(** One pass through the [try] block, when the transport fails and when the
    endpoint answers. *)
Lemma request_verdict_fails (chunk : list row) (n : nat) :
  fails (post w n) = true ->
  request_verdict rt w chunk n
  = (Raised (RequestException (failure_text (post w n))),
     request_events rt chunk, S n).
Proof.
  intros H. unfold request_verdict, requests_post, log, emit, bind.
  destruct (post w n); [reflexivity | discriminate].
Qed.

Lemma request_verdict_answers (chunk : list row) (n : nat) (r : response) :
  post w n = Answers r ->
  request_verdict rt w chunk n
  = (response_result rt r, request_events rt chunk ++ response_events r, S n).
Proof.
  intros H.
  unfold request_verdict, requests_post, log, emit, bind, response_result,
    response_events, loads, get, ret, raise.
  rewrite H.
  destruct (status_code r =? 200)%Z; [|reflexivity].
  destruct (json_loads rt (text r)) as [msg|v]; [reflexivity|].
  destruct v; reflexivity.
Qed.

(** [range(retries)] *)
Lemma range_loop_unit_step (fuel i : nat) :
  range_loop fuel i (i + fuel) 1 = seq i fuel.
Proof.
  revert i. induction fuel as [|fuel IH]; intros i; simpl; [reflexivity|].
  destruct (Nat.ltb_spec i (i + S fuel)); [|lia].
  f_equal. replace (i + S fuel) with (i + 1 + fuel) by lia.
  rewrite IH. f_equal. lia.
Qed.

Lemma py_range_attempts (retries : nat) : py_range 0 retries 1 = seq 0 retries.
Proof. unfold py_range. rewrite Nat.sub_0_r. apply (range_loop_unit_step retries 0). Qed.

(** Attempts that fail before the last one are followed by a sleep and the
    next attempt. *)
Lemma scan_attempts_failing (chunk : list row) (retries delay : nat)
      (count first n : nat) (rest : list nat) :
  first + count <= retries - 1 ->
  (forall j, j < count -> fails (post w (n + j)) = true) ->
  scan_attempts rt w chunk retries delay (seq first count ++ rest) n
  = (result_of (scan_attempts rt w chunk retries delay rest (n + count)),
     failed_attempts rt w chunk retries delay n first count
     ++ trace_of (scan_attempts rt w chunk retries delay rest (n + count)),
     sent_of (scan_attempts rt w chunk retries delay rest (n + count))).
Proof.
  revert first n. induction count as [|count IH]; intros first n Hle Hfail.
  - simpl. rewrite Nat.add_0_r.
    now destruct (scan_attempts rt w chunk retries delay rest n) as [[r evs] n'].
  - cbn [seq app scan_attempts failed_attempts].
    unfold try_except at 1.
    rewrite request_verdict_fails
      by (specialize (Hfail 0 ltac:(lia)); now rewrite Nat.add_0_r in Hfail).
    cbn [exn_str]. unfold log, sleep, emit, bind at 1.
    destruct (Nat.ltb_spec first (retries - 1)) as [_|Hge]; [|lia].
    unfold bind at 1.
    rewrite (IH (S first) (S n)) by
      (try lia; intros j Hj; replace (S n + j) with (n + S j) by lia;
       apply Hfail; lia).
    replace (S n + count) with (n + S count) by lia.
    unfold failed_attempt.
    destruct (Nat.ltb_spec first (retries - 1)) as [_|Hge]; [|lia].
    cbn [result_of trace_of sent_of fst snd].
    rewrite <- !app_assoc. reflexivity.
Qed.

(** The last attempt, failing, ends the loop without a sleep. *)
Lemma scan_attempts_last_fails (chunk : list row) (retries delay : nat)
      (attempt n : nat) (rest : list nat) :
  retries - 1 <= attempt ->
  fails (post w n) = true ->
  scan_attempts rt w chunk retries delay (attempt :: rest) n
  = (Ok None,
     failed_attempt rt chunk retries delay attempt (failure_text (post w n)),
     S n).
Proof.
  intros Hlast Hfail. cbn [scan_attempts]. unfold try_except.
  rewrite request_verdict_fails by assumption.
  cbn [exn_str]. unfold log, emit, bind, ret, failed_attempt.
  destruct (Nat.ltb_spec attempt (retries - 1)) as [Hlt|_]; [lia|].
  rewrite app_nil_r. reflexivity.
Qed.

(** An attempt that is answered ends the loop with what the response gives. *)
Lemma scan_attempts_answered (chunk : list row) (retries delay : nat)
      (attempt n : nat) (rest : list nat) (r : response) :
  post w n = Answers r ->
  scan_attempts rt w chunk retries delay (attempt :: rest) n
  = (response_result rt r, request_events rt chunk ++ response_events r, S n).
Proof.
  intros H. cbn [scan_attempts]. unfold try_except.
  rewrite (request_verdict_answers chunk n r H).
  unfold response_result.
  destruct (status_code r =? 200)%Z; [|reflexivity].
  destruct (json_loads rt (text r)) as [msg|v]; [reflexivity|].
  destruct v; reflexivity.
Qed.

(** The client after [k] transport failures and an answer. *)
Lemma scan_chunk_answered_after (chunk : list row) (retries delay n k : nat)
      (r : response) :
  k < retries ->
  (forall j, j < k -> fails (post w (n + j)) = true) ->
  post w (n + k) = Answers r ->
  scan_chunk_with_llm rt w chunk retries delay n
  = (response_result rt r,
     failed_attempts rt w chunk retries delay n 0 k
     ++ request_events rt chunk ++ response_events r,
     S (n + k)).
Proof.
  intros Hk Hfail Hans. unfold scan_chunk_with_llm.
  rewrite py_range_attempts.
  replace retries with (k + S (retries - S k)) at 2 by lia.
  rewrite seq_app. cbn [seq].
  rewrite scan_attempts_failing by (try assumption; lia).
  rewrite (scan_attempts_answered chunk retries delay (0 + k) (n + k) _ r Hans).
  reflexivity.
Qed.

(** The seconds slept and the requests sent over failed attempts. *)
Lemma sleeps_app (a b : list event) : sleeps (a ++ b) = sleeps a ++ sleeps b.
Proof. apply flat_map_app. Qed.

Lemma posts_app (a b : list event) : posts (a ++ b) = posts a ++ posts b.
Proof. apply filter_app. Qed.

Lemma sleeps_failed_attempts (chunk : list row) (retries delay n first count : nat) :
  first + count <= retries - 1 ->
  sleeps (failed_attempts rt w chunk retries delay n first count)
  = map (fun attempt => delay * (attempt + 1)) (seq first count).
Proof.
  revert n first. induction count as [|count IH]; intros n first Hle; [reflexivity|].
  cbn [failed_attempts seq map]. rewrite sleeps_app, IH by lia.
  unfold failed_attempt.
  destruct (Nat.ltb_spec first (retries - 1)) as [_|Hge]; [|lia].
  reflexivity.
Qed.

Lemma posts_failed_attempts (chunk : list row) (retries delay n first count : nat) :
  List.length (posts (failed_attempts rt w chunk retries delay n first count)) = count.
Proof.
  revert n first. induction count as [|count IH]; intros n first; [reflexivity|].
  cbn [failed_attempts]. rewrite posts_app, length_app, IH.
  unfold failed_attempt.
  destruct (first <? retries - 1)%nat; reflexivity.
Qed.

Lemma failed_attempts_app (chunk : list row) (retries delay n first a b : nat) :
  failed_attempts rt w chunk retries delay n first (a + b)
  = failed_attempts rt w chunk retries delay n first a
    ++ failed_attempts rt w chunk retries delay (n + a) (first + a) b.
Proof.
  revert n first. induction a as [|a IH]; intros n first.
  - simpl. now rewrite !Nat.add_0_r.
  - cbn [Nat.add failed_attempts]. rewrite IH, <- app_assoc.
    replace (S n + a) with (n + S a) by lia.
    replace (S first + a) with (first + S a) by lia. reflexivity.
Qed.

Lemma failed_attempts_last (chunk : list row) (retries delay n first : nat) :
  failed_attempts rt w chunk retries delay n first 1
  = failed_attempt rt chunk retries delay first (failure_text (post w n)).
Proof. cbn [failed_attempts]. apply app_nil_r. Qed.

End Client.

Section ClientClaims.

Import Json Cell Eff Env Scanner Spec.

Variable rt : runtime.
Variable w : world.

Lemma failed_attempts_five (chunk : list row) (delay n : nat) :
  failed_attempts rt w chunk 5 delay n 0 5
  = failed_attempts rt w chunk 5 delay n 0 4
    ++ failed_attempt rt chunk 5 delay 4 (failure_text (post w (n + 4))).
Proof.
  pose proof (failed_attempts_app rt w chunk 5 delay n 0 4 1) as H.
  rewrite failed_attempts_last in H. exact H.
Qed.

(** C3.  When the transport fails on each of the five attempts of a call,
    the client sends exactly five requests, sleeps [delay * 1], [delay * 2],
    [delay * 3] and [delay * 4] seconds between them, ends on the error entry
    of the fifth attempt with no sleep after it, and returns [None] (it does
    not raise). *)
Theorem all_transport_failures (chunk : list row) (delay n : nat) :
  (forall j, j < 5 -> fails (post w (n + j)) = true) ->
  let run := scan_chunk_with_llm rt w chunk 5 delay n in
  result_of run = Ok None
  /\ sent_of run = n + 5
  /\ List.length (posts (trace_of run)) = 5
  /\ sleeps (trace_of run) = [delay * 1; delay * 2; delay * 3; delay * 4]
  /\ trace_of run = failed_attempts rt w chunk 5 delay n 0 5
  /\ exists before,
       trace_of run
       = before ++ [EvLog ERROR ("Attempt 5 failed: "
                                 ++ failure_text (post w (n + 4)))].
Proof.
  intros Hfail run.
  assert (Hrun : run = (Ok None, failed_attempts rt w chunk 5 delay n 0 5, n + 5)).
  { unfold run, scan_chunk_with_llm. rewrite py_range_attempts.
    change (seq 0 5) with (seq 0 4 ++ [4]).
    rewrite scan_attempts_failing
      by (try (cbn; lia); intros j Hj; apply Hfail; lia).
    rewrite scan_attempts_last_fails by (try (cbn; lia); apply Hfail; lia).
    cbn [result_of trace_of sent_of fst snd].
    f_equal; [|lia]. f_equal.
    now rewrite failed_attempts_five. }
  rewrite Hrun. cbn [result_of trace_of sent_of fst snd].
  repeat apply conj; try reflexivity.
  rewrite failed_attempts_five. unfold failed_attempt.
  cbn [Nat.ltb Nat.leb Nat.sub Nat.add].
  eexists. rewrite app_nil_r, !app_assoc. reflexivity.
Qed.

(** C4.  When an attempt of a call is answered with a status other than
    200 (the attempts before it having failed in the transport), the client
    logs the error and returns [None] from that attempt: the request of that
    attempt is the last one, the error entry is the last event, and the only
    sleeps are those that came before the attempt. *)
Theorem non_200_is_not_retried (chunk : list row) (delay n k : nat) (r : response) :
  k < 5 ->
  (forall j, j < k -> fails (post w (n + j)) = true) ->
  post w (n + k) = Answers r ->
  status_code r <> 200%Z ->
  let run := scan_chunk_with_llm rt w chunk 5 delay n in
  result_of run = Ok None
  /\ sent_of run = S (n + k)
  /\ trace_of run
     = failed_attempts rt w chunk 5 delay n 0 k
       ++ request_events rt chunk
       ++ [EvLog INFO ("Response status code: " ++ PyStr.str_int (status_code r));
           EvLog ERROR ("Error from LLM: " ++ PyStr.str_int (status_code r)
                        ++ " - " ++ text r)]
  /\ List.length (posts (trace_of run)) = S k
  /\ sleeps (trace_of run) = map (fun attempt => delay * (attempt + 1)) (seq 0 k).
Proof.
  intros Hk Hfail Hans Hstatus run.
  unfold run. rewrite (scan_chunk_answered_after rt w chunk 5 delay n k r Hk Hfail Hans).
  unfold response_result, response_events.
  apply Z.eqb_neq in Hstatus. rewrite Hstatus.
  cbn [result_of trace_of sent_of fst snd].
  repeat apply conj; try reflexivity.
  - rewrite !posts_app, !length_app, posts_failed_attempts. cbn. lia.
  - rewrite !sleeps_app, sleeps_failed_attempts by (cbn; lia).
    cbn. now rewrite app_nil_r.
Qed.

Lemma dict_get_missing (key : string) (default : json) (items : list (string * json)) :
  (forall v, ~ In (key, v) items) -> dict_get key default items = default.
Proof.
  induction items as [|[k v] items IH]; intros Hmiss; simpl; [reflexivity|].
  destruct (String.eqb_spec k key) as [->|_].
  - exfalso. apply (Hmiss v). now left.
  - apply IH. intros v' Hin. apply (Hmiss v'). now right.
Qed.

(** The value [d.get(key, default)] gives for a key of the dict: that of
    its item. *)
Lemma dict_get_present (key : string) (default value : json)
      (before after : list (string * json)) :
  (forall k x, In (k, x) before -> k <> key) ->
  dict_get key default (before ++ (key, value) :: after) = value.
Proof.
  induction before as [|[k x] before IH]; intros Hkeys; cbn [app dict_get].
  - now rewrite String.eqb_refl.
  - destruct (String.eqb_spec k key) as [Heq|_].
    + exfalso. apply (Hkeys k x); [now left | exact Heq].
    + apply IH. intros k' x' Hin. apply (Hkeys k' x'). now right.
Qed.

(** C9.  When an attempt of a call is answered with status 200 and a JSON
    object, the client returns the value of the "response" field of that
    object: the value of the item whose key is "response", whatever the other
    fields around it; when the field is missing, or is the empty string, it
    returns the empty string, which is a Verdict and not the absence signal
    [None]. *)
Theorem status_200_returns_response_field
        (chunk : list row) (delay n k : nat) (r : response)
        (items : list (string * json)) :
  k < 5 ->
  (forall j, j < k -> fails (post w (n + j)) = true) ->
  post w (n + k) = Answers r ->
  status_code r = 200%Z ->
  json_loads rt (text r) = inr (JObj items) ->
  let run := scan_chunk_with_llm rt w chunk 5 delay n in
  result_of run = Ok (Some (dict_get "response" (JStr "") items))
  /\ (forall before value after,
         items = before ++ ("response", value) :: after ->
         (forall key x, In (key, x) before -> key <> "response") ->
         result_of run = Ok (Some value))
  /\ ((forall v, ~ In ("response", v) items) ->
      result_of run = Ok (Some (JStr "")))
  /\ (dict_get "response" (JStr "") items = JStr "" ->
      result_of run = Ok (Some (JStr "")))
  /\ result_of run <> Ok None.
Proof.
  intros Hk Hfail Hans Hstatus Hbody run.
  assert (Hres : result_of run = Ok (Some (dict_get "response" (JStr "") items))).
  { unfold run.
    rewrite (scan_chunk_answered_after rt w chunk 5 delay n k r Hk Hfail Hans).
    unfold response_result. rewrite Hstatus, Hbody. reflexivity. }
  repeat apply conj.
  - exact Hres.
  - intros before value after -> Hkeys.
    now rewrite Hres, dict_get_present.
  - intros Hmiss. rewrite Hres, dict_get_missing by assumption. reflexivity.
  - intros Hempty. now rewrite Hres, Hempty.
  - rewrite Hres. discriminate.
Qed.

End ClientClaims.

(** C3 on a server that refuses every connection. *)
Lemma all_transport_failures_witness :
  let w := Spec.demo_world ["a.csv"] [] Spec.refusing (fun _ => Spec.refusing) in
  let run := Scanner.scan_chunk_with_llm Spec.demo_runtime w [[Cell.CStr "Ann"]] 5 5 0 in
  Eff.result_of run = Eff.Ok None
  /\ Eff.sent_of run = 5
  /\ List.length (Spec.posts (Eff.trace_of run)) = 5
  /\ Spec.sleeps (Eff.trace_of run) = [5; 10; 15; 20].
Proof.
  intros w run.
  destruct (all_transport_failures Spec.demo_runtime w [[Cell.CStr "Ann"]] 5 0
              (fun j _ => eq_refl)) as (Hres & Hsent & Hposts & Hsleeps & _).
  repeat split; assumption.
Defined.

(** C4 on a server that answers the first request with status 500. *)
Lemma non_200_is_not_retried_witness :
  let r := Env.Response 500 "Internal Server Error" in
  let w := Spec.demo_world ["a.csv"] [] (Env.Answers r) (fun _ => Env.Answers r) in
  let run := Scanner.scan_chunk_with_llm Spec.demo_runtime w [[Cell.CStr "Ann"]] 5 5 0 in
  Eff.result_of run = Eff.Ok None
  /\ Eff.sent_of run = 1
  /\ Spec.sleeps (Eff.trace_of run) = [].
Proof.
  intros r w run.
  destruct (non_200_is_not_retried Spec.demo_runtime w [[Cell.CStr "Ann"]] 5 0 0 r)
    as (Hres & Hsent & _ & _ & Hsleeps).
  - apply Nat.lt_0_succ.
  - intros j Hj. inversion Hj.
  - reflexivity.
  - discriminate.
  - repeat split; assumption.
Defined.

(** C9 on a server whose JSON answer carries a Verdict in its "response"
    field, between two other fields. *)
Lemma status_200_returns_response_field_witness :
  let rt := Env.Runtime
              (fun body => inr (Json.JObj [("model", Json.JStr "llama3");
                                           ("response", Json.JStr body);
                                           ("done", Json.JBool true)]))
              (fun _ => "{...}") (fun _ => "") (fun _ => "") in
  let r := Env.Response 200 "Ann Lee is a full name." in
  let w := Spec.demo_world ["a.csv"] [] (Env.Answers r) (fun _ => Env.Answers r) in
  let run := Scanner.scan_chunk_with_llm rt w [[Cell.CStr "Ann Lee"]] 5 5 0 in
  Eff.result_of run = Eff.Ok (Some (Json.JStr "Ann Lee is a full name.")).
Proof.
  intros rt r w run.
  destruct (status_200_returns_response_field rt w [[Cell.CStr "Ann Lee"]] 5 0 0 r
              [("model", Json.JStr "llama3");
               ("response", Json.JStr "Ann Lee is a full name.");
               ("done", Json.JBool true)])
    as (_ & Hfield & _).
  - apply Nat.lt_0_succ.
  - intros j Hj. inversion Hj.
  - reflexivity.
  - reflexivity.
  - reflexivity.
  - apply (Hfield [("model", Json.JStr "llama3")]
                  (Json.JStr "Ann Lee is a full name.")
                  [("done", Json.JBool true)]).
    + reflexivity.
    + intros key x [Heq|[]]. injection Heq as <- _. discriminate.
Defined.

(** ** The chunks that are scanned *)

Section Sequencing.

Import Eff.

Lemma bind_ok (A B : Type) (c : M A) (k : A -> M B) (n : nat)
      (a : A) (evs : list event) (n' : nat) :
  c n = (Ok a, evs, n') ->
  bind c k n = (result_of (k a n'), evs ++ trace_of (k a n'), sent_of (k a n')).
Proof.
  intros Hc. unfold bind. rewrite Hc.
  now destruct (k a n') as [[r evs'] n''].
Qed.

Lemma bind_raised (A B : Type) (c : M A) (k : A -> M B) (n : nat)
      (e : exn) (evs : list event) (n' : nat) :
  c n = (Raised e, evs, n') -> bind c k n = (Raised e, evs, n').
Proof. intros Hc. unfold bind. now rewrite Hc. Qed.

Lemma run_eta (A : Type) (x : res A * list event * nat) :
  x = (result_of x, trace_of x, sent_of x).
Proof. now destruct x as [[r evs] n]. Qed.

End Sequencing.

Section ChunkerClaim.

Import Json Cell Eff Env Scanner Spec Runs.

Variable rt : runtime.
Variable w : world.

(** One chunk whose request is answered at once with a string Verdict. *)
Lemma chunk_answered_with_text (file_path : string) (chunk : list row) (i n : nat) :
  answered_with_text rt (post w n) ->
  bind (scan_chunk_with_llm rt w chunk 5 5) (report rt file_path i) n
  = (Ok tt,
     request_events rt chunk
     ++ response_events (answer_of (post w n))
     ++ report_lines file_path i (verdict_text rt (answer_of (post w n))),
     S n).
Proof.
  intros (r & items & verdict & Hpost & Hstatus & Hbody & Hfield).
  assert (Hscan : scan_chunk_with_llm rt w chunk 5 5 n
                  = (Ok (Some (JStr verdict)),
                     request_events rt chunk ++ response_events r, S n)).
  { rewrite (scan_chunk_answered_after rt w chunk 5 5 n 0 r);
      [ | lia | intros j Hj; lia | now rewrite Nat.add_0_r ].
    unfold response_result. rewrite Hstatus, Hbody, Hfield, Nat.add_0_r.
    reflexivity. }
  rewrite (bind_ok _ _ _ _ n _ _ _ Hscan), report_string.
  rewrite Hpost. unfold verdict_text, report_lines. cbn [answer_of].
  rewrite Hbody, Hfield.
  cbn [result_of trace_of sent_of fst snd]. now rewrite <- app_assoc.
Qed.

Lemma scan_answered (file_path : string) (rows : list row) (starts : list nat)
      (n : nat) :
  (forall k, k < List.length starts -> answered_with_text rt (post w (n + k))) ->
  for_each starts
    (fun i => result <- scan_chunk_with_llm rt w (iloc rows i (i + CHUNK_SIZE)) 5 5 ;;
              report rt file_path i result) n
  = (Ok tt, answered_scan rt w file_path rows starts n, n + List.length starts).
Proof.
  revert n. induction starts as [|i starts IH]; intros n Hans.
  - cbn. now rewrite Nat.add_0_r.
  - cbn [for_each answered_scan List.length].
    rewrite (bind_ok _ _ _ _ n tt _ _
               (chunk_answered_with_text file_path _ i n
                  ltac:(specialize (Hans 0 ltac:(cbn; lia));
                        now rewrite Nat.add_0_r in Hans))).
    rewrite IH.
    + cbn [result_of trace_of sent_of fst snd].
      rewrite <- !app_assoc. f_equal. lia.
    + intros k Hk. replace (S n + k) with (n + S k) by lia.
      apply Hans. cbn. lia.
Qed.

Lemma for_each_combine_map (A B : Type) (f : A -> B) (body : A -> B -> M unit)
      (l : list A) :
  for_each (combine l (map f l)) (fun pair => body (fst pair) (snd pair))
  = for_each l (fun i => body i (f i)).
Proof.
  induction l as [|x l IH]; [reflexivity|].
  cbn [map combine for_each fst snd]. now rewrite IH.
Qed.

Lemma posts_report_lines (file_path : string) (i : nat) (verdict : string) :
  posts (report_lines file_path i verdict) = [].
Proof.
  unfold report_lines. destruct (String.eqb verdict ""); [reflexivity|].
  destruct (PyStr.contains "No PII detected" verdict); reflexivity.
Qed.

Lemma posts_answered_scan (file_path : string) (rows : list row)
      (starts : list nat) (n : nat) :
  posts (answered_scan rt w file_path rows starts n)
  = map (fun i => EvPost OLLAMA_URL (payload_of (iloc rows i (i + CHUNK_SIZE))) 300)
        starts.
Proof.
  revert n. induction starts as [|i starts IH]; intros n; [reflexivity|].
  cbn [answered_scan map]. rewrite !posts_app, posts_report_lines, IH.
  unfold response_events.
  destruct (status_code (answer_of (post w n)) =? 200)%Z; reflexivity.
Qed.

(** C2.  The chunks of the loop of [process_file] partition the rows of the
    table: put end to end they give back the rows, their row indices are
    0, 1, ..., [len - 1] once each and in increasing order, every chunk but
    the last holds [CHUNK_SIZE] rows and no chunk is empty or longer; a table
    of 1500 rows gives the two chunks of rows 0-999 and 1000-1499.  These
    chunks are the ones the loop scans: [scan_table] runs the client and the
    reporter on each of them with its start, in order, and when every request
    is answered at once the requests it sends are those of the chunks, one
    for each and in their order. *)
Theorem chunks_partition_rows (file_path : string) (header : row)
        (rows : list row) (n : nat) :
  concat (chunks CHUNK_SIZE rows) = rows
  /\ concat (map (fun i => seq i (List.length (iloc rows i (i + CHUNK_SIZE))))
                 (py_range 0 (List.length rows) CHUNK_SIZE))
     = seq 0 (List.length rows)
  /\ (forall pre c c' post,
         chunks CHUNK_SIZE rows = pre ++ c :: c' :: post ->
         List.length c = CHUNK_SIZE)
  /\ Forall (fun c => 0 < List.length c <= CHUNK_SIZE) (chunks CHUNK_SIZE rows)
  /\ (List.length rows = 1500 ->
      chunks CHUNK_SIZE rows = [firstn 1000 rows; skipn 1000 rows]
      /\ row_ranges CHUNK_SIZE rows = [(0, 999); (1000, 1499)])
  /\ scan_table rt w file_path (Table header rows)
     = for_each (combine (py_range 0 (List.length rows) CHUNK_SIZE)
                         (chunks CHUNK_SIZE rows))
         (fun start_chunk =>
            result <- scan_chunk_with_llm rt w (snd start_chunk) 5 5 ;;
            report rt file_path (fst start_chunk) result)
  /\ ((forall k,
          k < List.length (chunks CHUNK_SIZE rows) ->
          answered_with_text rt (post w (n + k))) ->
      posts (trace_of (scan_table rt w file_path (Table header rows) n))
      = map (fun chunk => EvPost OLLAMA_URL (payload_of chunk) 300)
            (chunks CHUNK_SIZE rows)).
Proof.
  destruct (chunks_partition_any_size CHUNK_SIZE rows chunk_size_pos)
    as (Hcat & Hidx & Hfull & Hlen).
  repeat apply conj; try assumption.
  - apply chunks_of_1500.
  - unfold scan_table, chunks. cbn [Cell.rows].
    symmetry.
    apply (for_each_combine_map nat (list row)
             (fun i => iloc rows i (i + CHUNK_SIZE))
             (fun i chunk => result <- scan_chunk_with_llm rt w chunk 5 5 ;;
                             report rt file_path i result)).
  - intros Hans. unfold scan_table. cbn [Cell.rows].
    rewrite (scan_answered file_path rows _ n)
      by (intros k Hk; apply Hans; unfold chunks; now rewrite length_map).
    cbn [trace_of fst snd]. rewrite posts_answered_scan.
    unfold chunks. now rewrite map_map.
Qed.

End ChunkerClaim.

(** C2 on a table of 2500 rows against a server that answers every request:
    three requests, for the rows 0-999, 1000-1999 and 2000-2499. *)
Lemma chunks_partition_rows_witness :
  let rows := List.repeat [Cell.CStr "x"] 2500 in
  let w := Spec.demo_world ["a.csv"] [] Runs.server_up Runs.always_clean in
  map (fun c => List.length c) (Spec.chunks Scanner.CHUNK_SIZE rows) = [1000; 1000; 500]
  /\ List.length
       (Spec.posts (Eff.trace_of
          (Scanner.scan_table Spec.demo_runtime w "Data/a.csv" (Cell.Table [] rows) 0)))
     = 3.
Proof.
  intros rows w. split; [vm_compute; reflexivity|].
  destruct (chunks_partition_rows Spec.demo_runtime w "Data/a.csv" [] rows 0)
    as (_ & _ & _ & _ & _ & _ & Hposts).
  rewrite Hposts.
  - rewrite length_map. vm_compute. reflexivity.
  - intros k _.
    exists (Env.Response 200 "No PII detected."),
           [("response", Json.JStr "No PII detected.")], "No PII detected.".
    repeat split.
Defined.

(** ** Flattener *)

Section Flattener.

Import Json Cell Eff Env Scanner Spec.

(** The accumulating loops of [extract_non_null_data] as a filter and a
    map. *)
Lemma extract_row_acc (acc : list string) (r : row) :
  extract_row acc r
  = acc ++ map (fun v => PyStr.strip (Cell.str v)) (filter kept r).
Proof.
  unfold extract_row. revert acc.
  induction r as [|v r IH]; intros acc; cbn [fold_left filter map].
  - now rewrite app_nil_r.
  - rewrite IH.
    change (notna v && negb (py_in_list v EMPTY_VALUES)) with (kept v).
    destruct (kept v); cbn [map].
    + now rewrite <- app_assoc.
    + reflexivity.
Qed.

Lemma extract_acc (acc : list string) (chunk : list row) :
  fold_left extract_row chunk acc
  = acc ++ map (fun v => PyStr.strip (Cell.str v)) (filter kept (concat chunk)).
Proof.
  revert acc. induction chunk as [|r chunk IH]; intros acc; simpl.
  - now rewrite app_nil_r.
  - rewrite IH, extract_row_acc, filter_app, map_app, app_assoc. reflexivity.
Qed.

(** The text of an integer starts with a digit or a minus sign. *)
Lemma str_int_not_sentinel (z : Z) : is_sentinel (PyStr.str_int z) = false.
Proof.
  unfold PyStr.str_int.
  destruct z as [|p|p]; [reflexivity| |]; simpl.
  - destruct (Pos.to_uint p); reflexivity.
  - destruct (Pos.to_uint p); reflexivity.
Qed.

(** The test of the source, on the value, is the test of the specification,
    on the text of the value. *)
Lemma kept_survives (v : cell) : kept v = survives v.
Proof.
  unfold kept, survives.
  destruct v as [| |s|z|b]; try reflexivity.
  - (* an integer: its text is no sentinel *)
    change (Cell.str (CInt z)) with (PyStr.str_int z).
    rewrite str_int_not_sentinel. reflexivity.
  - destruct b; reflexivity.
Qed.

Lemma extract_is_flatten (chunk : list row) :
  extract_non_null_data chunk = flatten_tokens chunk.
Proof.
  unfold extract_non_null_data, flatten_tokens.
  rewrite extract_acc. cbn [app]. f_equal.
  apply filter_ext. apply kept_survives.
Qed.

End Flattener.

Section FlattenerClaim.

Import Json Cell Eff Env Scanner Spec Runs.

Variable rt : runtime.
Variable w : world.

Lemma isspace_is_white (c : ascii) : PyStr.isspace c = is_white c.
Proof. destruct c as [[] [] [] [] [] [] [] []]; reflexivity. Qed.

Lemma lstrip_spec (s : string) :
  exists l, s = (l ++ PyStr.lstrip s)%string /\ all_white l = true.
Proof.
  induction s as [|c s (l & Hs & Hl)]; [now exists ""%string|].
  cbn [PyStr.lstrip]. destruct (PyStr.isspace c) eqn:Hc.
  - exists (String c l). cbn [append all_white].
    rewrite <- isspace_is_white, Hc, Hl. split; [now rewrite <- Hs | reflexivity].
  - now exists ""%string.
Qed.

Lemma rstrip_spec (s : string) :
  exists r,
    s = (PyStr.rstrip s ++ r)%string
    /\ all_white r = true /\ ends_white (PyStr.rstrip s) = false.
Proof.
  induction s as [|c s (r & Hs & Hr & He)]; [now exists ""%string|].
  cbn [PyStr.rstrip]. destruct (PyStr.rstrip s) as [|x t] eqn:Hst.
  - cbn [append] in Hs. subst s.
    destruct (PyStr.isspace c) eqn:Hc.
    + exists (String c r). cbn [append all_white ends_white].
      now rewrite <- isspace_is_white, Hc, Hr.
    + exists r. cbn [append all_white ends_white].
      now rewrite <- isspace_is_white, Hc, Hr.
  - exists r. repeat split; [|exact Hr|exact He].
    cbn [append]. f_equal. exact Hs.
Qed.

Lemma lstrip_not_white (s : string) : starts_white (PyStr.lstrip s) = false.
Proof.
  induction s as [|c s IH]; [reflexivity|].
  cbn [PyStr.lstrip]. destruct (PyStr.isspace c) eqn:Hc; [exact IH|].
  cbn [starts_white]. now rewrite <- isspace_is_white.
Qed.

Lemma rstrip_keeps_start (s : string) :
  starts_white s = false -> starts_white (PyStr.rstrip s) = false.
Proof.
  destruct s as [|c s]; [reflexivity|]. cbn [starts_white PyStr.rstrip].
  intros Hc. destruct (PyStr.rstrip s); [|exact Hc].
  destruct (PyStr.isspace c); [reflexivity | exact Hc].
Qed.

(** [strip] removes the white space of the two ends, and nothing else. *)
Lemma strip_trims (s : string) : trimmed_from s (PyStr.strip s).
Proof.
  unfold PyStr.strip.
  destruct (lstrip_spec s) as (l & Hs & Hl).
  destruct (rstrip_spec (PyStr.lstrip s)) as (r & Hr & Hwr & He).
  exists l, r. repeat split; try assumption.
  - rewrite Hs at 1. now rewrite Hr at 1.
  - apply rstrip_keeps_start, lstrip_not_white.
Qed.

Lemma text_of_str (v : cell) : text_of v = Cell.str v.
Proof. destruct v as [| |s|z|[|]]; reflexivity. Qed.

Lemma visited_kept (v : cell) : visited v = kept v.
Proof.
  rewrite kept_survives. unfold visited, survives. rewrite text_of_str.
  now destruct v.
Qed.

Lemma join_joined (tokens : list string) :
  joined_by_spaces tokens (PyStr.join " " tokens).
Proof.
  induction tokens as [|t tokens IH]; [constructor|].
  destruct tokens as [|t' tokens]; [constructor|].
  change (PyStr.join " " (t :: t' :: tokens))
    with (t ++ " " ++ PyStr.join " " (t' :: tokens))%string.
  now constructor.
Qed.

Lemma Forall2_map_right (A B : Type) (P : A -> B -> Prop) (f : A -> B) (l : list A) :
  (forall x, P x (f x)) -> Forall2 P l (map f l).
Proof. intros Hf. induction l; constructor; auto. Qed.

(** The prompt of a request is a fixed text that ends on the line
    "Dataset:", then the text of the chunk on a line of its own. *)
Lemma prompt_holds_dataset :
  exists head,
    forall dataset_text,
      prompt_template 12 dataset_text
      = (head ++ "Dataset:" ++ PyStr.nl ++ request_indent ++ dataset_text
         ++ PyStr.nl ++ request_indent)%string.
Proof.
  eexists. intros dataset_text. unfold prompt_template.
  change (PyStr.repeat " " 12) with request_indent. cbv zeta.
  set (tail := ("Dataset:" ++ PyStr.nl ++ request_indent ++ dataset_text
                ++ PyStr.nl ++ request_indent)%string).
  rewrite <- !StrFacts.app_assoc. reflexivity.
Qed.

(** C5.  The tokens of a chunk are its cells in row-major order, without
    the missing ones and those whose text is a sentinel, each stringified and
    trimmed: token by token, the token is the text of its cell without the
    white space of its two ends.  The flattened text is the tokens in order
    with one space between two neighbours, and it is what the prompt of the
    request of the chunk carries after its "Dataset:" line. *)
Theorem flatten_row_major (chunk : list row) (n : nat) :
  extract_non_null_data chunk
  = map (fun v => PyStr.strip (Cell.str v)) (filter survives (concat chunk))
  /\ PyStr.join " " (extract_non_null_data chunk) = flatten_text chunk
  /\ firstn 2 (trace_of (request_verdict rt w chunk n))
     = [EvLog INFO ("Sending request to Ollama server: "
                    ++ py_repr rt
                         (JObj [("model", JStr OLLAMA_MODEL);
                                ("prompt", JStr (prompt_template 12 (flatten_text chunk)));
                                ("stream", JBool false)]));
        EvPost OLLAMA_URL
               (JObj [("model", JStr OLLAMA_MODEL);
                      ("prompt", JStr (prompt_template 12 (flatten_text chunk)));
                      ("stream", JBool false)])
               300]
  /\ Forall2 (fun value token => trimmed_from (text_of value) token)
             (filter visited (concat chunk))
             (extract_non_null_data chunk)
  /\ joined_by_spaces (extract_non_null_data chunk) (flatten_text chunk)
  /\ (exists head,
        forall text,
          prompt_template 12 text
          = (head ++ "Dataset:" ++ PyStr.nl ++ request_indent ++ text
             ++ PyStr.nl ++ request_indent)%string).
Proof.
  repeat apply conj.
  - apply extract_is_flatten.
  - unfold flatten_text. now rewrite extract_is_flatten.
  - unfold flatten_text. rewrite <- extract_is_flatten.
    destruct (post w n) as [msg|r] eqn:Hpost.
    + rewrite request_verdict_fails by now rewrite Hpost.
      reflexivity.
    + rewrite (request_verdict_answers rt w chunk n r Hpost).
      reflexivity.
  - unfold extract_non_null_data. rewrite extract_acc. cbn [app].
    rewrite (filter_ext _ _ visited_kept).
    apply Forall2_map_right. intros v. rewrite text_of_str. apply strip_trims.
  - unfold flatten_text. rewrite <- extract_is_flatten. apply join_joined.
  - apply prompt_holds_dataset.
Qed.

End FlattenerClaim.

(** C5 on a chunk of two rows. *)
Lemma flatten_row_major_witness :
  Forall2 (fun value token => Spec.trimmed_from (Spec.text_of value) token)
          [Cell.CStr "  Ann Lee "; Cell.CInt 31; Cell.CBool false]
          (Scanner.extract_non_null_data
             [[Cell.CStr "  Ann Lee "; Cell.CNaN; Cell.CInt 31];
              [Cell.CStr "NaN"; Cell.CBool false; Cell.CNone]])
  /\ Spec.joined_by_spaces
       (Scanner.extract_non_null_data
          [[Cell.CStr "  Ann Lee "; Cell.CNaN; Cell.CInt 31];
           [Cell.CStr "NaN"; Cell.CBool false; Cell.CNone]])
       "Ann Lee 31 False".
Proof.
  destruct (flatten_row_major Spec.demo_runtime
              (Spec.demo_world [] [] Spec.refusing (fun _ => Spec.refusing))
              [[Cell.CStr "  Ann Lee "; Cell.CNaN; Cell.CInt 31];
               [Cell.CStr "NaN"; Cell.CBool false; Cell.CNone]] 0)
    as (_ & _ & _ & Htokens & Htext & _).
  split; [exact Htokens | exact Htext].
Defined.

(** ** Flattening twice *)

Section Reflatten.

Import Json Cell Eff Env Scanner Spec PyStr.

Lemma lstrip_starts_trimmed (s : string) : starts_trimmed (lstrip s) = true.
Proof.
  induction s as [|c s IH]; simpl; [reflexivity|].
  destruct (isspace c) eqn:Hc; [exact IH | simpl; now rewrite Hc].
Qed.

Lemma lstrip_fixed (s : string) : starts_trimmed s = true -> lstrip s = s.
Proof.
  destruct s as [|c s]; simpl; [reflexivity|].
  now destruct (isspace c).
Qed.

Lemma rstrip_starts_trimmed (s : string) :
  starts_trimmed s = true -> starts_trimmed (rstrip s) = true.
Proof.
  destruct s as [|c s]; simpl; [reflexivity|]. intros Hc.
  destruct (isspace c) eqn:E; [discriminate|].
  destruct (rstrip s); simpl; now rewrite E.
Qed.

Lemma rstrip_idempotent (s : string) : rstrip (rstrip s) = rstrip s.
Proof.
  induction s as [|c s IH]; simpl; [reflexivity|].
  destruct (rstrip s) as [|x r] eqn:Hr.
  - destruct (isspace c) eqn:Hc; simpl; [reflexivity | now rewrite Hc].
  - cbn [rstrip] in *. now rewrite IH.
Qed.

(** Trimming a trimmed text changes nothing. *)
Lemma strip_idempotent (s : string) : strip (strip s) = strip s.
Proof.
  unfold strip.
  rewrite (lstrip_fixed (rstrip (lstrip s))).
  - apply rstrip_idempotent.
  - apply rstrip_starts_trimmed, lstrip_starts_trimmed.
Qed.

(** Splitting on spaces undoes joining with spaces, for tokens without a
    space. *)
Lemma has_space_cons (c : ascii) (s : string) :
  has_space (String c s) = false ->
  Ascii.eqb c " " = false /\ has_space s = false.
Proof.
  unfold has_space. cbn [contains startswith].
  rewrite orb_false_iff, andb_true_r, Ascii.eqb_sym. tauto.
Qed.

Lemma split_one_token (t : string) :
  has_space t = false -> split " " t = [t].
Proof.
  induction t as [|c t IH]; intros H; [reflexivity|].
  apply has_space_cons in H as [Hc Ht].
  cbn [split]. now rewrite Hc, IH.
Qed.

Lemma split_first_token (t rest : string) :
  has_space t = false ->
  split " " (t ++ " " ++ rest)%string = t :: split " " rest.
Proof.
  induction t as [|c t IH]; intros H; [reflexivity|].
  apply has_space_cons in H as [Hc Ht].
  cbn [append split]. rewrite Hc.
  change (String " " rest) with (" " ++ rest)%string.
  now rewrite IH.
Qed.

Lemma split_join (tokens : list string) :
  tokens <> [] ->
  Forall (fun t => has_space t = false) tokens ->
  split " " (join " " tokens) = tokens.
Proof.
  intros Hne Hall. induction Hall as [|t tokens Ht Hall IH]; [congruence|].
  destruct tokens as [|t' tokens].
  - now apply split_one_token.
  - change (join " " (t :: t' :: tokens))
      with (t ++ " " ++ join " " (t' :: tokens))%string.
    rewrite split_first_token by assumption.
    f_equal. apply IH. discriminate.
Qed.

(** Flattening a chunk of one column. *)
Lemma extract_single_column (tokens : list string) :
  extract_non_null_data (single_column tokens)
  = map strip (filter (fun t => negb (is_sentinel t)) tokens).
Proof.
  rewrite extract_is_flatten. unfold flatten_tokens, single_column.
  induction tokens as [|t tokens IH]; [reflexivity|].
  cbn [map concat app filter].
  change (survives (CStr t)) with (negb (is_sentinel t)).
  destruct (negb (is_sentinel t)); cbn [map]; now rewrite IH.
Qed.

Lemma extract_tokens_trimmed (chunk : list row) :
  Forall (fun t => strip t = t) (extract_non_null_data chunk).
Proof.
  rewrite extract_is_flatten. unfold flatten_tokens.
  apply Forall_forall. intros t Ht.
  apply in_map_iff in Ht as (v & <- & _). apply strip_idempotent.
Qed.

(** C8, as the code has it.  When no token of the flattened chunk is a
    sentinel or holds a space, splitting the flattened text on spaces,
    rebuilding a chunk of one column from the pieces and flattening it gives
    the tokens of the chunk again. *)
Theorem reflatten_clean_tokens (chunk : list row) :
  Forall (fun t => is_sentinel t = false /\ has_space t = false)
         (extract_non_null_data chunk) ->
  reflatten chunk = extract_non_null_data chunk.
Proof.
  intros Hclean. unfold reflatten.
  pose proof (extract_tokens_trimmed chunk) as Htrim.
  destruct (extract_non_null_data chunk) as [|t tokens] eqn:Htok; [reflexivity|].
  rewrite split_join.
  - rewrite extract_single_column.
    clear Htok. revert Hclean Htrim.
    generalize (t :: tokens) as l. induction l as [|x l IH]; [reflexivity|].
    intros Hclean Htrim.
    apply Forall_cons_iff in Hclean as [[Hx _] Hclean].
    apply Forall_cons_iff in Htrim as [Hsx Htrim].
    cbn [filter]. rewrite Hx. cbn [negb map].
    now rewrite Hsx, IH.
  - discriminate.
  - eapply Forall_impl; [|exact Hclean]. now intros a [_ Ha].
Qed.

End Reflatten.

(** C8 on a chunk of clean tokens. *)
Lemma reflatten_clean_tokens_witness :
  Spec.reflatten [[Cell.CStr " Ann "; Cell.CInt 42]; [Cell.CNaN; Cell.CStr "Lee"]]
  = ["Ann"; "42"; "Lee"].
Proof.
  rewrite reflatten_clean_tokens.
  - reflexivity.
  - repeat constructor.
Defined.

(** C8 as stated fails on a cell that trims to a sentinel: the chunk
    flattens to the token "nan", the text splits to that one token, and the
    chunk rebuilt from it flattens to nothing. *)
Lemma reflatten_drops_trimmed_sentinel :
  Scanner.extract_non_null_data [[Cell.CStr " nan "]] = ["nan"]
  /\ PyStr.split " " (PyStr.join " " ["nan"]) = ["nan"]
  /\ Spec.reflatten [[Cell.CStr " nan "]] = [].
Proof. repeat split. Qed.

(** ** Pre-flight check *)

Section Preflight.

Import Json Cell Eff Env Scanner Spec.

Variable rt : runtime.
Variable w : world.

(** [check_ollama_server] sends one GET and answers whether it got a 200. *)
Lemma check_ollama_server_result (n : nat) :
  check_ollama_server w n
  = (Ok (match probe w with
         | Fails _ => false
         | Answers r => (status_code r =? 200)%Z
         end),
     [EvGet "http://localhost:11434" 10], n).
Proof.
  unfold check_ollama_server, try_except, bind, requests_get, ret.
  destruct (probe w); reflexivity.
Qed.

(** C6.  When the probe (a GET of the root of the endpoint with a timeout
    of 10 seconds) raises a transport failure or is answered with a status
    other than 200, the run ends after the "server unavailable" entry: the
    folder is not listed, no file is read, no request is sent, and the log
    holds no entry about a file. *)
Theorem probe_failure_aborts_run (n : nat) :
  (exists msg, probe w = Fails msg)
  \/ (exists r, probe w = Answers r /\ status_code r <> 200%Z) ->
  main rt w n
  = (Ok tt,
     if path_exists w DATA_FOLDER
     then [EvGet "http://localhost:11434" 10;
           EvLog ERROR "Ollama server is not running or inaccessible!";
           EvPrint "Ollama server is not running or inaccessible!"]
     else [EvLog ERROR "Data folder 'Data' not found!"],
     n)
  /\ Forall (fun e => is_file_event e = false) (trace_of (main rt w n)).
Proof.
  intros Hdown.
  assert (Hmain :
    main rt w n
    = (Ok tt,
       if path_exists w DATA_FOLDER
       then [EvGet "http://localhost:11434" 10;
             EvLog ERROR "Ollama server is not running or inaccessible!";
             EvPrint "Ollama server is not running or inaccessible!"]
       else [EvLog ERROR "Data folder 'Data' not found!"],
       n)).
  { unfold main. destruct (path_exists w DATA_FOLDER); [|reflexivity].
    cbn [negb]. unfold bind at 1. rewrite check_ollama_server_result.
    destruct Hdown as [[msg ->] | [r [-> Hstatus]]].
    - reflexivity.
    - apply Z.eqb_neq in Hstatus. rewrite Hstatus. reflexivity. }
  split; [exact Hmain|].
  rewrite Hmain. cbn [trace_of fst snd].
  destruct (path_exists w DATA_FOLDER); repeat constructor.
Qed.

End Preflight.

(** C6 on a server that refuses the connection of the probe, with a data
    file waiting in the folder. *)
Lemma probe_failure_aborts_run_witness :
  let w := Spec.demo_world ["a.csv"] [[Cell.CStr "x"]; [Cell.CStr "name"]; [Cell.CStr "Ann"]]
             Spec.refusing (fun _ => Spec.refusing) in
  Scanner.main Spec.demo_runtime w 0
  = (Eff.Ok tt,
     [Eff.EvGet "http://localhost:11434" 10;
      Eff.EvLog Eff.ERROR "Ollama server is not running or inaccessible!";
      Eff.EvPrint "Ollama server is not running or inaccessible!"],
     0).
Proof.
  intros w.
  apply (probe_failure_aborts_run Spec.demo_runtime w 0).
  left. exists "Connection refused". reflexivity.
Defined.

(** ** Loader *)

Module LowerFacts.

Import PyStr.

Lemma lower_char_idempotent (a : ascii) : lower_char (lower_char a) = lower_char a.
Proof. destruct a as [[] [] [] [] [] [] [] []]; reflexivity. Qed.

Lemma lower_char_dot (a : ascii) : Ascii.eqb (lower_char a) "." = Ascii.eqb a ".".
Proof. destruct a as [[] [] [] [] [] [] [] []]; reflexivity. Qed.

Lemma lower_char_slash (a : ascii) : Ascii.eqb (lower_char a) "/" = Ascii.eqb a "/".
Proof. destruct a as [[] [] [] [] [] [] [] []]; reflexivity. Qed.

Lemma lower_idempotent (s : string) : lower (lower s) = lower s.
Proof.
  induction s as [|a s IH]; simpl; [reflexivity|].
  now rewrite lower_char_idempotent, IH.
Qed.

Lemma rfind_from_lower (c : ascii) (s : string) (i : Z) :
  (forall a, Ascii.eqb (lower_char a) c = Ascii.eqb a c) ->
  rfind_from c (lower s) i = rfind_from c s i.
Proof.
  intros Hc. revert i. induction s as [|a s IH]; intros i; simpl; [reflexivity|].
  now rewrite IH, Hc.
Qed.

Lemma take_lower (n : nat) (s : string) : take n (lower s) = lower (take n s).
Proof.
  revert s. induction n as [|n IH]; intros [|a s]; simpl; try reflexivity.
  now rewrite IH.
Qed.

Lemma drop_lower (n : nat) (s : string) : drop n (lower s) = lower (drop n s).
Proof.
  revert s. induction n as [|n IH]; intros [|a s]; simpl; try reflexivity.
  apply IH.
Qed.

Lemma char_at_lower_is_dot (i : nat) (s : string) :
  String.eqb (char_at i (lower s)) "." = String.eqb (char_at i s) ".".
Proof.
  unfold char_at. rewrite drop_lower, take_lower.
  destruct (drop i s) as [|a t]; [reflexivity|].
  cbn [take lower String.eqb]. rewrite lower_char_dot. reflexivity.
Qed.

Lemma skip_leading_dots_lower (p : string) (dotIndex steps filenameIndex : nat) :
  skip_leading_dots (lower p) dotIndex steps filenameIndex
  = (lower (fst (skip_leading_dots p dotIndex steps filenameIndex)),
     lower (snd (skip_leading_dots p dotIndex steps filenameIndex))).
Proof.
  revert filenameIndex. induction steps as [|steps IH]; intros filenameIndex.
  - reflexivity.
  - cbn [skip_leading_dots]. rewrite char_at_lower_is_dot.
    destruct (negb (String.eqb (char_at filenameIndex p) ".")).
    + cbn [fst snd]. now rewrite take_lower, drop_lower.
    + apply IH.
Qed.

(** Lower-casing a path lower-cases its root and its extension. *)
Lemma splitext_lower (p : string) :
  splitext (lower p) = (lower (fst (splitext p)), lower (snd (splitext p))).
Proof.
  unfold splitext, rfind.
  rewrite !rfind_from_lower by (apply lower_char_slash || apply lower_char_dot).
  destruct (rfind_from "/" p 0 <? rfind_from "." p 0)%Z.
  - apply skip_leading_dots_lower.
  - reflexivity.
Qed.

End LowerFacts.

Section Loader.

Import Json Cell Eff Env Scanner Spec.

Variable rt : runtime.
Variable w : world.

(** [load] reads with the reader of the format of the path. *)
Lemma load_by_format (file_path : string) :
  load w file_path
  = match format_of file_path with
    | Csv => df <- read_csv w file_path 1 ;; ret (Some df)
    | Excel => df <- read_excel w file_path 1 ;; ret (Some df)
    | Unsupported =>
        log WARNING ("Unsupported file format: " ++ file_path) ;;; ret None
    end.
Proof.
  unfold load, format_of.
  destruct (String.eqb (PyStr.lower (snd (PyStr.splitext file_path))) ".csv");
    [reflexivity|].
  destruct (existsb (String.eqb (PyStr.lower (snd (PyStr.splitext file_path))))
                    [".xls"; ".xlsx"]); reflexivity.
Qed.

Lemma format_of_lower (file_path : string) :
  format_of (PyStr.lower file_path) = format_of file_path.
Proof.
  unfold format_of. rewrite LowerFacts.splitext_lower. cbn [snd].
  now rewrite LowerFacts.lower_idempotent.
Qed.

(** [process_file] catches every exception: it always returns. *)
Lemma process_file_returns (file_path : string) (n : nat) :
  result_of (process_file rt w file_path n) = Ok tt.
Proof.
  unfold process_file, try_except.
  match goal with |- context [bind ?c ?k n] => destruct (bind c k n) as [[[[]|e] evs] n'] end;
    reflexivity.
Qed.

(** The loop of [main] goes on after a file, whatever happened in it. *)
Lemma for_each_process_file (file_path : string) (rest : list string) (n : nat) :
  let first := process_file rt w file_path n in
  let others := for_each rest (process_file rt w) (sent_of first) in
  for_each (file_path :: rest) (process_file rt w) n
  = (result_of others, trace_of first ++ trace_of others, sent_of others).
Proof.
  intros first others. cbn [for_each]. unfold bind.
  pose proof (process_file_returns file_path n) as Hret.
  fold first in Hret |- *.
  destruct first as [[r evs] n']. cbn [result_of fst] in Hret. subst r.
  subst others. cbn [sent_of trace_of result_of fst snd].
  now destruct (for_each rest (process_file rt w) n') as [[r' evs'] n''].
Qed.

Lemma process_file_unsupported (file_path : string) (n : nat) :
  format_of file_path = Unsupported ->
  process_file rt w file_path n
  = (Ok tt, [EvLog WARNING ("Unsupported file format: " ++ file_path)], n).
Proof.
  intros Hfmt. unfold process_file, try_except, bind at 1.
  rewrite load_by_format, Hfmt. reflexivity.
Qed.

Lemma process_file_reads (file_path : string) (n : nat) :
  match format_of file_path with
  | Csv => firstn 1 (trace_of (process_file rt w file_path n)) = [EvReadCsv file_path 1]
  | Excel => firstn 1 (trace_of (process_file rt w file_path n)) = [EvReadExcel file_path 1]
  | Unsupported => True
  end.
Proof.
  destruct (format_of file_path) eqn:Hfmt; [| |exact I].
  - unfold process_file, try_except, bind at 1.
    rewrite load_by_format, Hfmt. unfold bind at 1, read_csv.
    destruct (csv_records w file_path) as [msg|lines]; [reflexivity|].
    destruct (skipn 1 lines) as [|header data]; [reflexivity|].
    cbn [ret]. cbn [app].
    match goal with |- context [bind ?c ?k n] => destruct (bind c k n) as [[[[]|e] evs] n'] end;
      reflexivity.
  - unfold process_file, try_except, bind at 1.
    rewrite load_by_format, Hfmt. unfold bind at 1, read_excel.
    destruct (excel_records w file_path) as [msg|lines]; [reflexivity|].
    destruct (skipn 1 lines) as [|header data]; cbn [ret app];
    match goal with |- context [bind ?c ?k n] => destruct (bind c k n) as [[[[]|e] evs] n'] end;
      reflexivity.
Qed.

End Loader.

Section LoaderClaims.

Import Json Cell Eff Env Scanner Spec.

Variable rt : runtime.
Variable w : world.

(** With the folder in place and the server up, [main] lists the folder and
    hands to [process_file], in the order of the listing, the entries whose
    names end in ".csv", ".xls" or ".xlsx". *)
Lemma main_processes_datasets (entries : list string) (r : response) (n : nat) :
  path_exists w DATA_FOLDER = true ->
  probe w = Answers r ->
  status_code r = 200%Z ->
  listdir w DATA_FOLDER = inr entries ->
  filter is_dataset entries <> [] ->
  let run := for_each (filter is_dataset entries)
               (fun file => process_file rt w (PyStr.path_join DATA_FOLDER file)) n in
  main rt w n
  = (result_of run,
     EvGet "http://localhost:11434" 10 :: EvListdir DATA_FOLDER :: trace_of run,
     sent_of run).
Proof.
  intros Hdir Hprobe Hstatus Hlist Hfiles. cbv zeta.
  unfold main. rewrite Hdir. cbn [negb].
  unfold bind at 1. rewrite check_ollama_server_result, Hprobe, Hstatus.
  cbn [Z.eqb Pos.eqb negb]. unfold bind at 1, os_listdir. rewrite Hlist.
  destruct (filter is_dataset entries) as [|file files]; [congruence|].
  match goal with
  | |- context [for_each ?l ?f n] => destruct (for_each l f n) as [[res evs] n']
  end.
  reflexivity.
Qed.

(** C7, as the code has it.  [process_file] selects the reader of a path
    from its extension alone, compared without regard to case (an upper- or
    mixed-case variant of .csv, .xls or .xlsx selects what the lower-case
    form selects); a path with another extension is logged as a warning and
    not read, and the loop over the files goes on with the next one.  [main]
    hands to [process_file] the entries of the folder whose names end in
    ".csv", ".xls" or ".xlsx". *)
Theorem format_selected_by_extension (file_path : string) (rest : list string) (n : nat) :
  (forall other,
      PyStr.lower (snd (PyStr.splitext other))
      = PyStr.lower (snd (PyStr.splitext file_path)) ->
      format_of other = format_of file_path)
  /\ format_of (PyStr.lower file_path) = format_of file_path
  /\ match format_of file_path with
     | Csv =>
         firstn 1 (trace_of (process_file rt w file_path n)) = [EvReadCsv file_path 1]
     | Excel =>
         firstn 1 (trace_of (process_file rt w file_path n)) = [EvReadExcel file_path 1]
     | Unsupported =>
         process_file rt w file_path n
         = (Ok tt, [EvLog WARNING ("Unsupported file format: " ++ file_path)], n)
     end
  /\ (let first := process_file rt w file_path n in
      let others := for_each rest (process_file rt w) (sent_of first) in
      for_each (file_path :: rest) (process_file rt w) n
      = (result_of others, trace_of first ++ trace_of others, sent_of others))
  /\ (forall entries r,
         path_exists w DATA_FOLDER = true ->
         probe w = Answers r ->
         status_code r = 200%Z ->
         listdir w DATA_FOLDER = inr entries ->
         filter is_dataset entries <> [] ->
         let run := for_each (filter is_dataset entries)
                      (fun file => process_file rt w (PyStr.path_join DATA_FOLDER file)) n in
         main rt w n
         = (result_of run,
            EvGet "http://localhost:11434" 10 :: EvListdir DATA_FOLDER :: trace_of run,
            sent_of run)).
Proof.
  repeat apply conj.
  - intros other Hext. unfold format_of. now rewrite Hext.
  - apply format_of_lower.
  - pose proof (process_file_reads rt w file_path n) as Hread.
    destruct (format_of file_path) eqn:Hfmt; try exact Hread.
    now apply process_file_unsupported.
  - apply for_each_process_file.
  - intros entries r. apply main_processes_datasets.
Qed.

End LoaderClaims.

(** C7 as stated fails in [main]: with the server up and a folder holding
    "REPORT.CSV" and "notes.txt", the first has the extension of a CSV file
    and is not read, the second has an unrecognized extension and gets no
    warning; the run ends on "No datasets found." *)
Lemma main_skips_upper_case_names :
  let w := Spec.demo_world ["REPORT.CSV"; "notes.txt"]
             [[Cell.CStr "x"]; [Cell.CStr "name"]; [Cell.CStr "Ann"]]
             (Env.Answers (Env.Response 200 "Ollama is running"))
             (fun _ => Env.Answers (Env.Response 200 "No PII detected.")) in
  Spec.format_of (PyStr.path_join Scanner.DATA_FOLDER "REPORT.CSV") = Spec.Csv
  /\ Spec.format_of (PyStr.path_join Scanner.DATA_FOLDER "notes.txt") = Spec.Unsupported
  /\ Scanner.main Spec.demo_runtime w 0
     = (Eff.Ok tt,
        [Eff.EvGet "http://localhost:11434" 10;
         Eff.EvListdir "Data";
         Eff.EvLog Eff.INFO "No datasets found in the Data folder.";
         Eff.EvPrint "No datasets found."],
        0).
Proof. repeat split. Qed.

(** ** What the loader leaves out *)

Section SkippedLines.

Import Json Cell Eff Env Scanner Spec.

Variable rt : runtime.

Lemma for_each_ext (A : Type) (l : list A) (f g : A -> M unit) :
  (forall x, f x = g x) -> for_each l f = for_each l g.
Proof.
  intros Hfg. induction l as [|x l IH]; simpl; [reflexivity|].
  now rewrite Hfg, IH.
Qed.

(** Two environments with the same answers to the POST requests give the
    same run of the model client. *)
Section SameServer.

Variables w1 w2 : world.
Hypothesis same_posts : post w1 = post w2.

Lemma request_verdict_same_server (chunk : list row) :
  request_verdict rt w1 chunk = request_verdict rt w2 chunk.
Proof. unfold request_verdict, requests_post. now rewrite same_posts. Qed.

Lemma scan_attempts_same_server (chunk : list row) (retries delay : nat)
      (attempts : list nat) :
  scan_attempts rt w1 chunk retries delay attempts
  = scan_attempts rt w2 chunk retries delay attempts.
Proof.
  induction attempts as [|attempt attempts IH]; simpl; [reflexivity|].
  now rewrite request_verdict_same_server, IH.
Qed.

Lemma scan_table_same_server (file_path : string) (header1 header2 : row)
      (data : list row) :
  scan_table rt w1 file_path (Table header1 data)
  = scan_table rt w2 file_path (Table header2 data).
Proof.
  unfold scan_table. cbn [rows]. apply for_each_ext. intros i.
  unfold scan_chunk_with_llm. now rewrite scan_attempts_same_server.
Qed.

End SameServer.

(** C10.  A supported file is read with [skiprows=1]: its first line is
    dropped, its second line becomes the column labels, and the table holds
    the lines after them.  Nothing the run does depends on the cells of the
    first two lines: with the same lines after them and the same server, two
    files give the same requests, the same console output and the same
    log. *)
Theorem first_two_lines_are_not_scanned
        (w1 w2 : world) (file_path : string)
        (line1 line2 line1' line2' : row) (data : list row) (n : nat) :
  post w1 = post w2 ->
  match format_of file_path with
  | Csv =>
      csv_records w1 file_path = inr (line1 :: line2 :: data)
      /\ csv_records w2 file_path = inr (line1' :: line2' :: data)
  | Excel =>
      excel_records w1 file_path = inr (line1 :: line2 :: data)
      /\ excel_records w2 file_path = inr (line1' :: line2' :: data)
  | Unsupported => False
  end ->
  load w1 file_path n
  = (Ok (Some (Table line2 data)),
     [match format_of file_path with
      | Excel => EvReadExcel file_path 1
      | _ => EvReadCsv file_path 1
      end], n)
  /\ process_file rt w1 file_path n = process_file rt w2 file_path n.
Proof.
  intros Hposts Hlines.
  unfold process_file, try_except, bind at 1 3.
  rewrite !load_by_format.
  destruct (format_of file_path); [| |contradiction];
    destruct Hlines as [H1 H2].
  - unfold bind at 1 2 3, read_csv. rewrite H1, H2. cbn [skipn ret app rows].
    split; [reflexivity|].
    unfold bind.
    rewrite (scan_table_same_server w1 w2 Hposts file_path line2 line2' data).
    reflexivity.
  - unfold bind at 1 2 3, read_excel. rewrite H1, H2. cbn [skipn ret app rows].
    split; [reflexivity|].
    unfold bind.
    rewrite (scan_table_same_server w1 w2 Hposts file_path line2 line2' data).
    reflexivity.
Qed.

End SkippedLines.

(** C10 on two CSV files that differ in their first two lines only, against
    a server that finds nothing. *)
Lemma first_two_lines_are_not_scanned_witness :
  let server := fun _ : nat => Env.Answers (Env.Response 200 "No PII detected.") in
  let up := Env.Answers (Env.Response 200 "Ollama is running") in
  let data := [[Cell.CStr "Ann"; Cell.CInt 31]; [Cell.CStr "Lee"; Cell.CNaN]] in
  let w1 := Spec.demo_world ["a.csv"]
              ([Cell.CStr "Jo Doe"; Cell.CStr "jo@x.org"]
               :: [Cell.CStr "Al Roe"; Cell.CInt 77] :: data) up server in
  let w2 := Spec.demo_world ["a.csv"]
              ([Cell.CStr "exported 2024"] :: [Cell.CStr "name"; Cell.CStr "age"] :: data)
              up server in
  Scanner.process_file Spec.demo_runtime w1 "Data/a.csv" 0
  = Scanner.process_file Spec.demo_runtime w2 "Data/a.csv" 0.
Proof.
  intros server up data w1 w2.
  apply (first_two_lines_are_not_scanned Spec.demo_runtime w1 w2 "Data/a.csv"
           [Cell.CStr "Jo Doe"; Cell.CStr "jo@x.org"] [Cell.CStr "Al Roe"; Cell.CInt 77]
           [Cell.CStr "exported 2024"] [Cell.CStr "name"; Cell.CStr "age"] data 0).
  - reflexivity.
  - split; reflexivity.
Defined.

(** ** The model on concrete inputs *)

Example splitext_csv : PyStr.splitext "Data/a.csv" = ("Data/a", ".csv").
Proof. reflexivity. Qed.

Example splitext_hidden : PyStr.splitext "Data/.csv" = ("Data/.csv", "").
Proof. reflexivity. Qed.

Example splitext_inner_dots :
  PyStr.splitext "Data/..x.tar.GZ" = ("Data/..x.tar", ".GZ").
Proof. reflexivity. Qed.

Example splitext_dot_in_folder :
  PyStr.splitext "Da.ta/readme" = ("Da.ta/readme", "").
Proof. reflexivity. Qed.

Example strip_example :
  PyStr.strip ("  John  Smith " ++ PyStr.nl) = "John  Smith".
Proof. reflexivity. Qed.

Example split_example : PyStr.split " " "a  b" = ["a"; ""; "b"].
Proof. reflexivity. Qed.

Example lower_example : PyStr.lower "A.CsV" = "a.csv".
Proof. reflexivity. Qed.

Example contains_example :
  PyStr.contains "No PII detected" "Sure! No PII detected." = true.
Proof. reflexivity. Qed.

Example path_join_example : PyStr.path_join "Data" "a.csv" = "Data/a.csv".
Proof. reflexivity. Qed.

Example range_example :
  Scanner.py_range 0 2500 Scanner.CHUNK_SIZE = [0; 1000; 2000]
  /\ Scanner.py_range 0 2000 Scanner.CHUNK_SIZE = [0; 1000]
  /\ Scanner.py_range 0 0 Scanner.CHUNK_SIZE = [].
Proof. repeat split; vm_compute; reflexivity. Qed.

Example extract_example :
  Scanner.extract_non_null_data
    [[Cell.CStr " Ann "; Cell.CNaN; Cell.CInt (-7)];
     [Cell.CStr "nan"; Cell.CBool true; Cell.CStr " "; Cell.CNone; Cell.CStr "J. Doe"]]
  = ["Ann"; "-7"; "True"; ""; "J. Doe"].
Proof. reflexivity. Qed.

(** A hidden file named ".csv" passes the filter of [main] and is refused by
    [process_file]; the file after it is still read. *)
Example hidden_name_is_warned :
  let w := Spec.demo_world [".csv"; "b.csv"] []
             (Env.Answers (Env.Response 200 "Ollama is running"))
             (fun _ => Spec.refusing) in
  Eff.trace_of (Scanner.main Spec.demo_runtime w 0)
  = [Eff.EvGet "http://localhost:11434" 10;
     Eff.EvListdir "Data";
     Eff.EvLog Eff.WARNING "Unsupported file format: Data/.csv";
     Eff.EvReadCsv "Data/b.csv" 1;
     Eff.EvLog Eff.ERROR "Error processing Data/b.csv: No columns to parse from file"].
Proof. reflexivity. Qed.

(* ================================================================== *)
(** * Further properties of the program *)


(** ** One file *)

Section OneFile.

Import Json Cell Eff Env Scanner Spec Runs.

Variable rt : runtime.
Variable w : world.

(** [process_file] on a file that loads: the events of the load, the header
    of the file, the scan of the table, and the error entry when the scan
    raised. *)
Lemma process_file_loaded (file_path : string) (n : nat) (df : table)
      (evs : list event) :
  load w file_path n = (Ok (Some df), evs, n) ->
  process_file rt w file_path n
  = (Ok tt,
     evs ++ file_header_events file_path (rows df)
     ++ trace_of (scan_table rt w file_path df n)
     ++ match result_of (scan_table rt w file_path df n) with
        | Ok _ => []
        | Raised e => [file_error_event file_path e]
        end,
     sent_of (scan_table rt w file_path df n)).
Proof.
  intros Hload. unfold process_file, try_except.
  rewrite (bind_ok _ _ _ _ n _ _ _ Hload).
  unfold bind, log, print, emit, file_header_events, file_error_event.
  destruct (scan_table rt w file_path df n) as [[[[]|e] evs'] n'];
    cbn [result_of trace_of sent_of fst snd app ret];
    rewrite <- ?app_assoc; cbn [app]; rewrite ?app_nil_r; reflexivity.
Qed.

(** [process_file] on a file whose load raises. *)
Lemma process_file_load_raises (file_path : string) (n : nat) (e : exn)
      (evs : list event) :
  load w file_path n = (Raised e, evs, n) ->
  process_file rt w file_path n
  = (Ok tt, evs ++ [file_error_event file_path e], n).
Proof.
  intros Hload. unfold process_file, try_except.
  rewrite (bind_raised _ _ _ _ n _ _ _ Hload).
  reflexivity.
Qed.

End OneFile.

(** ** The checks of [main] *)

Section MainChecks.

Import Json Cell Eff Env Scanner Spec Runs.

Variable rt : runtime.
Variable w : world.

Lemma for_each_files_returns (files : list string) (n : nat) :
  result_of (for_each files
               (fun file => process_file rt w (PyStr.path_join DATA_FOLDER file)) n)
  = Ok tt.
Proof.
  revert n. induction files as [|file files IH]; intros n; [reflexivity|].
  cbn [for_each].
  pose proof (process_file_returns rt w (PyStr.path_join DATA_FOLDER file) n) as Hret.
  destruct (process_file rt w (PyStr.path_join DATA_FOLDER file) n)
    as [[res evs] n'] eqn:Hfile.
  cbn [result_of fst] in Hret. subst res.
  rewrite (bind_ok _ _ _ _ n tt evs n' Hfile).
  apply IH.
Qed.

(** X1.  A run reads a file or sends a generation request only after its
    three checks passed: the data folder exists, the probe of the server was
    answered with status 200, and the listing of the folder holds a name
    ending in ".csv", ".xls" or ".xlsx". *)
Theorem reads_only_after_checks (n : nat) (e : event) :
  In e (trace_of (main rt w n)) ->
  (match e with
   | EvReadCsv _ _ | EvReadExcel _ _ | EvPost _ _ _ => True
   | _ => False
   end) ->
  path_exists w DATA_FOLDER = true
  /\ (exists r, probe w = Answers r /\ status_code r = 200%Z)
  /\ (exists entries,
         listdir w DATA_FOLDER = inr entries /\ filter is_dataset entries <> []).
Proof.
  unfold main. destruct (path_exists w DATA_FOLDER) eqn:Hdir; cbn [negb].
  - unfold bind at 1. rewrite check_ollama_server_result.
    destruct (probe w) as [msg|r] eqn:Hprobe.
    + cbn. intros [<-|[<-|[<-|[]]]] []; contradiction.
    + destruct (status_code r =? 200)%Z eqn:Hstatus.
      * cbn [negb]. unfold bind at 1, os_listdir.
        destruct (listdir w DATA_FOLDER) as [msg|entries] eqn:Hlist.
        -- cbn. intros [<-|[<-|[]]] [].
        -- destruct (filter is_dataset entries) as [|file files] eqn:Hfiles.
           ++ cbn. intros [<-|[<-|[<-|[<-|[]]]]] [].
           ++ intros _ _. repeat split.
              ** exists r. split; [reflexivity | now apply Z.eqb_eq].
              ** exists entries. split; [reflexivity | now rewrite Hfiles].
      * cbn. intros [<-|[<-|[<-|[]]]] [].
  - cbn. intros [<-|[]] [].
Qed.

(** X2.  With the folder in place and the server up, a listing without any
    name ending in ".csv", ".xls" or ".xlsx" (an empty folder, or names in
    upper case only) ends the run on "No datasets found.": nothing is read
    and nothing is sent. *)
Theorem no_dataset_ends_run (entries : list string) (r : response) (n : nat) :
  path_exists w DATA_FOLDER = true ->
  probe w = Answers r ->
  status_code r = 200%Z ->
  listdir w DATA_FOLDER = inr entries ->
  (forall name, In name entries -> is_dataset name = false) ->
  main rt w n
  = (Ok tt,
     [EvGet "http://localhost:11434" 10;
      EvListdir DATA_FOLDER;
      EvLog INFO "No datasets found in the Data folder.";
      EvPrint "No datasets found."],
     n).
Proof.
  intros Hdir Hprobe Hstatus Hlist Hnone.
  unfold main. rewrite Hdir. cbn [negb].
  unfold bind at 1. rewrite check_ollama_server_result, Hprobe, Hstatus.
  cbn [Z.eqb Pos.eqb negb]. unfold bind at 1, os_listdir. rewrite Hlist.
  replace (filter is_dataset entries) with (@nil string); [reflexivity|].
  symmetry. clear Hlist. induction entries as [|name entries IH]; [reflexivity|].
  cbn [filter]. rewrite (Hnone name) by now left.
  apply IH. intros other Hin. apply Hnone. now right.
Qed.

(** X3.  [main] returns normally whenever the folder can be listed:
    whatever happens inside a file (a reader that raises, a body that is not
    JSON, a Verdict that is not a string) is caught by [process_file]. *)
Theorem main_returns (entries : list string) (n : nat) :
  listdir w DATA_FOLDER = inr entries ->
  result_of (main rt w n) = Ok tt.
Proof.
  intros Hlist. unfold main.
  destruct (path_exists w DATA_FOLDER); cbn [negb]; [|reflexivity].
  unfold bind at 1. rewrite check_ollama_server_result.
  destruct (match probe w with
            | Fails _ => false
            | Answers r => (status_code r =? 200)%Z
            end); cbn [negb]; [|reflexivity].
  unfold bind at 1, os_listdir. rewrite Hlist.
  destruct (filter is_dataset entries) as [|file files]; [reflexivity|].
  pose proof (for_each_files_returns (file :: files) n) as Hret.
  destruct (for_each (file :: files) _ n) as [[res evs] n'].
  exact Hret.
Qed.

(** X4.  The one exception [main] lets through is that of [os.listdir]:
    with the folder reported as existing and the server up, a listing that
    raises ends the run with that exception, after the probe and before any
    file. *)
Theorem listdir_error_escapes (msg : string) (r : response) (n : nat) :
  path_exists w DATA_FOLDER = true ->
  probe w = Answers r ->
  status_code r = 200%Z ->
  listdir w DATA_FOLDER = inl msg ->
  main rt w n
  = (Raised (OtherException msg),
     [EvGet "http://localhost:11434" 10; EvListdir DATA_FOLDER], n).
Proof.
  intros Hdir Hprobe Hstatus Hlist.
  unfold main. rewrite Hdir. cbn [negb].
  unfold bind at 1. rewrite check_ollama_server_result, Hprobe, Hstatus.
  cbn [Z.eqb Pos.eqb negb]. unfold bind at 1, os_listdir. rewrite Hlist.
  reflexivity.
Qed.

End MainChecks.

(** ** Files that fail, and files that are empty *)

Section FileEdges.

Import Json Cell Eff Env Scanner Spec Runs.

Variable rt : runtime.
Variable w : world.

(** X5.  A reader that raises (a file that cannot be parsed) costs one
    error entry: [process_file] logs "Error processing" with the text of the
    exception and returns, and no request is sent for the file. *)
Theorem reader_error_is_contained (file_path msg : string) (n : nat) :
  match format_of file_path with
  | Csv => csv_records w file_path = inl msg
  | Excel => excel_records w file_path = inl msg
  | Unsupported => False
  end ->
  process_file rt w file_path n
  = (Ok tt,
     [match format_of file_path with
      | Excel => EvReadExcel file_path 1
      | _ => EvReadCsv file_path 1
      end;
      EvLog ERROR ("Error processing " ++ file_path ++ ": " ++ msg)],
     n).
Proof.
  intros Hrec.
  apply (process_file_load_raises rt w file_path n (OtherException msg)
           [match format_of file_path with
            | Excel => EvReadExcel file_path 1
            | _ => EvReadCsv file_path 1
            end]).
  rewrite load_by_format.
  destruct (format_of file_path); [| |contradiction].
  - unfold bind, read_csv. now rewrite Hrec.
  - unfold bind, read_excel. now rewrite Hrec.
Qed.

Lemma py_range_empty (step : nat) : py_range 0 0 step = [].
Proof. reflexivity. Qed.

(** X6.  A file whose table has no row (nothing after the skipped line and
    the header) is announced with "0 rows" and the preview of an empty
    prompt, and no request is sent for it. *)
Theorem empty_table_sends_nothing (file_path : string) (n : nat) (df : table)
        (evs : list event) :
  load w file_path n = (Ok (Some df), evs, n) ->
  rows df = [] ->
  process_file rt w file_path n
  = (Ok tt, evs ++ file_header_events file_path [], n).
Proof.
  intros Hload Hrows.
  rewrite (process_file_loaded rt w file_path n df evs Hload).
  unfold scan_table. rewrite Hrows. cbn [List.length].
  rewrite py_range_empty. cbn [for_each ret result_of trace_of sent_of fst snd app].
  now rewrite app_nil_r.
Qed.

(** The first chunk of a table that has rows starts at row 0. *)
Lemma py_range_first (stop step : nat) :
  0 < stop ->
  py_range 0 stop step = 0 :: range_loop (stop - 1) (0 + step) stop step.
Proof.
  intros Hpos. unfold py_range. rewrite Nat.sub_0_r.
  destruct stop as [|stop]; [lia|].
  cbn [range_loop Nat.ltb Nat.leb]. f_equal. f_equal. lia.
Qed.

(** X7.  A 200 answer whose body cannot be used (it is not JSON, or not a
    JSON object) is not retried: the exception leaves the client, ends the
    scan of the file after this one request whatever the number of chunks
    left, and is logged by [process_file] as "Error processing". *)
Theorem unusable_body_aborts_file (file_path : string) (n : nat) (df : table)
        (evs : list event) (r : response) (e : exn) :
  load w file_path n = (Ok (Some df), evs, n) ->
  rows df <> [] ->
  post w n = Answers r ->
  response_result rt r = Raised e ->
  process_file rt w file_path n
  = (Ok tt,
     evs ++ file_header_events file_path (rows df)
     ++ (request_events rt (iloc (rows df) 0 (0 + CHUNK_SIZE))
         ++ response_events r)
     ++ [file_error_event file_path e],
     S n).
Proof.
  intros Hload Hrows Hpost Hres.
  rewrite (process_file_loaded rt w file_path n df evs Hload).
  assert (Hscan : scan_table rt w file_path df n
                  = (Raised e,
                     request_events rt (iloc (rows df) 0 (0 + CHUNK_SIZE))
                     ++ response_events r, S n)).
  { unfold scan_table.
    rewrite py_range_first by (destruct (rows df); [congruence | cbn; lia]).
    cbn [for_each].
    apply bind_raised. apply bind_raised.
    rewrite (scan_chunk_answered_after rt w _ 5 5 n 0 r);
      [ | lia | intros j Hj; lia | now rewrite Nat.add_0_r ].
    rewrite Hres, Nat.add_0_r. reflexivity. }
  rewrite Hscan. reflexivity.
Qed.

(** X8.  When every request of a file is answered at once with status 200
    and a string in the "response" field, the file costs one request per
    chunk: after the header come, chunk by chunk and in order, the request,
    the status entry and the lines of the reporter for the Verdict (none for
    an empty one, the clean line, or the flagged lines), and the run has sent
    as many requests as the table has chunks. *)
Theorem answered_file_trace (file_path : string) (n : nat) (df : table)
        (evs : list event) :
  load w file_path n = (Ok (Some df), evs, n) ->
  (forall k,
      k < List.length (py_range 0 (List.length (rows df)) CHUNK_SIZE) ->
      answered_with_text rt (post w (n + k))) ->
  process_file rt w file_path n
  = (Ok tt,
     evs ++ file_header_events file_path (rows df)
     ++ answered_scan rt w file_path (rows df)
          (py_range 0 (List.length (rows df)) CHUNK_SIZE) n,
     n + List.length (py_range 0 (List.length (rows df)) CHUNK_SIZE)).
Proof.
  intros Hload Hans.
  rewrite (process_file_loaded rt w file_path n df evs Hload).
  unfold scan_table. rewrite (scan_answered rt w file_path (rows df) _ n Hans).
  cbn [result_of trace_of sent_of fst snd]. now rewrite app_nil_r.
Qed.

End FileEdges.

(** ** The retry loop for any number of retries *)

Section Retries.

Import Json Cell Eff Env Scanner Spec Runs.

Variable rt : runtime.
Variable w : world.

Lemma backoff_total (delay m : nat) :
  2 * list_sum (map (fun attempt => delay * (attempt + 1)) (seq 0 m))
  = delay * (S m * m).
Proof.
  induction m as [|m IH]; [cbn; lia|].
  rewrite seq_S, map_app, list_sum_app, Nat.mul_add_distr_l, IH.
  cbn [map list_sum fold_right Nat.add]. nia.
Qed.

(** X9.  For any number of retries and any delay, a call whose every
    attempt fails in the transport sends [retries] requests, sleeps
    [delay * 1], ..., [delay * (retries - 1)] seconds between them (the
    back-off grows linearly, [delay * retries * (retries - 1) / 2] seconds in
    all) and returns [None]; with [retries = 0] it returns [None] without a
    request. *)
Theorem retries_exhausted (chunk : list row) (retries delay n : nat) :
  (forall j, j < retries -> fails (post w (n + j)) = true) ->
  let run := scan_chunk_with_llm rt w chunk retries delay n in
  result_of run = Ok None
  /\ sent_of run = n + retries
  /\ List.length (posts (trace_of run)) = retries
  /\ sleeps (trace_of run)
     = map (fun attempt => delay * (attempt + 1)) (seq 0 (retries - 1))
  /\ 2 * list_sum (sleeps (trace_of run)) = delay * (retries * (retries - 1)).
Proof.
  intros Hfail run. subst run. unfold scan_chunk_with_llm.
  rewrite py_range_attempts.
  destruct retries as [|m].
  - cbn. repeat split; lia.
  - rewrite seq_S. cbn [Nat.add].
    rewrite scan_attempts_failing
      by (try (cbn; lia); intros j Hj; apply Hfail; lia).
    rewrite scan_attempts_last_fails by (try (cbn; lia); apply Hfail; lia).
    cbn [result_of trace_of sent_of fst snd].
    replace (S m - 1) with m by lia.
    assert (Hsleeps :
      sleeps (failed_attempts rt w chunk (S m) delay n 0 m
              ++ failed_attempt rt chunk (S m) delay m
                   (failure_text (post w (n + m))))
      = map (fun attempt => delay * (attempt + 1)) (seq 0 m)).
    { rewrite sleeps_app, sleeps_failed_attempts by (cbn; lia).
      unfold failed_attempt. rewrite !sleeps_app.
      replace (m <? S m - 1)%nat with false
        by (symmetry; apply Nat.ltb_ge; lia).
      cbn. now rewrite app_nil_r. }
    repeat apply conj.
    + reflexivity.
    + lia.
    + rewrite posts_app, length_app, posts_failed_attempts.
      unfold failed_attempt. rewrite !posts_app, !length_app.
      destruct (m <? S m - 1)%nat; cbn; lia.
    + exact Hsleeps.
    + rewrite Hsleeps. apply backoff_total.
Qed.

End Retries.

(** ** The requests a file may cost *)

Section Budget.

Import Json Cell Eff Env Scanner Spec Runs.

Variable rt : runtime.
Variable w : world.

Lemma sends_ret (A : Type) (a : A) : sends_at_most 0 (ret a).
Proof. intros n. cbn. lia. Qed.

Lemma sends_raise (A : Type) (e : exn) : sends_at_most 0 (@raise A e).
Proof. intros n. cbn. lia. Qed.

Lemma sends_emit (e : event) : is_post e = false -> sends_at_most 0 (emit e).
Proof. intros He n. cbn. rewrite He. cbn. lia. Qed.

Lemma sends_more (A : Type) (a b : nat) (c : M A) :
  a <= b -> sends_at_most a c -> sends_at_most b c.
Proof. intros Hab Hc n. specialize (Hc n). lia. Qed.

Lemma sends_bind (A B : Type) (a b : nat) (c : M A) (k : A -> M B) :
  sends_at_most a c -> (forall x, sends_at_most b (k x)) ->
  sends_at_most (a + b) (bind c k).
Proof.
  intros Hc Hk n. specialize (Hc n). unfold bind.
  destruct (c n) as [[[x|e] evs] n']; cbn [sent_of trace_of fst snd] in *.
  - specialize (Hk x n').
    destruct (k x n') as [[r evs'] n'']; cbn [sent_of trace_of fst snd] in *.
    rewrite posts_app, length_app. lia.
  - lia.
Qed.

Lemma sends_try (A : Type) (a b : nat) (c : M A) (handler : exn -> option (M A)) :
  sends_at_most a c ->
  (forall e h, handler e = Some h -> sends_at_most b h) ->
  sends_at_most (a + b) (try_except c handler).
Proof.
  intros Hc Hh n. specialize (Hc n). unfold try_except.
  destruct (c n) as [[[x|e] evs] n']; cbn [sent_of trace_of fst snd] in *.
  - lia.
  - destruct (handler e) as [h|] eqn:He; cbn [sent_of trace_of fst snd].
    + specialize (Hh e h He n').
      destruct (h n') as [[r evs'] n'']; cbn [sent_of trace_of fst snd] in *.
      rewrite posts_app, length_app. lia.
    + lia.
Qed.

Lemma sends_for_each (A : Type) (b : nat) (l : list A) (body : A -> M unit) :
  (forall x, sends_at_most b (body x)) ->
  sends_at_most (b * List.length l) (for_each l body).
Proof.
  intros Hbody. induction l as [|x l IH]; cbn [for_each List.length].
  - rewrite Nat.mul_0_r. apply sends_ret.
  - replace (b * S (List.length l)) with (b + b * List.length l) by lia.
    apply sends_bind; [apply Hbody | intros _; exact IH].
Qed.

Lemma sends_request_verdict (chunk : list row) :
  sends_at_most 1 (request_verdict rt w chunk).
Proof.
  intros n. destruct (post w n) as [msg|r] eqn:Hpost.
  - rewrite request_verdict_fails by now rewrite Hpost.
    cbn. lia.
  - rewrite (request_verdict_answers rt w chunk n r Hpost).
    cbn [sent_of trace_of fst snd]. unfold response_events.
    rewrite posts_app. destruct (status_code r =? 200)%Z; cbn; lia.
Qed.

Lemma sends_scan_attempts (chunk : list row) (retries delay : nat)
      (attempts : list nat) :
  sends_at_most (List.length attempts)
                (scan_attempts rt w chunk retries delay attempts).
Proof.
  induction attempts as [|attempt attempts IH]; cbn [scan_attempts List.length].
  - apply sends_ret.
  - change (S (List.length attempts)) with (1 + List.length attempts).
    apply sends_try; [apply sends_request_verdict|].
    intros e h He. destruct e as [msg|msg]; [|discriminate].
    injection He as <-.
    change (List.length attempts) with (0 + List.length attempts).
    apply sends_bind; [now apply sends_emit|]. intros _.
    destruct (attempt <? retries - 1)%nat.
    + change (List.length attempts) with (0 + List.length attempts).
      apply sends_bind; [now apply sends_emit | intros _; exact IH].
    + apply (sends_more _ 0); [lia | apply sends_ret].
Qed.

Lemma sends_scan_chunk (chunk : list row) (retries delay : nat) :
  sends_at_most retries (scan_chunk_with_llm rt w chunk retries delay).
Proof.
  unfold scan_chunk_with_llm. rewrite py_range_attempts.
  pose proof (sends_scan_attempts chunk retries delay (seq 0 retries)) as H.
  now rewrite length_seq in H.
Qed.

(** X10.  Whatever the server does, a call of the client sends at most
    [retries] requests, and the counter of requests grows by exactly the
    number of POST events of the call. *)
Theorem client_request_budget (chunk : list row) (retries delay n : nat) :
  let run := scan_chunk_with_llm rt w chunk retries delay n in
  sent_of run = n + List.length (posts (trace_of run))
  /\ List.length (posts (trace_of run)) <= retries.
Proof. apply sends_scan_chunk. Qed.

Lemma sends_report (file_path : string) (i : nat) (result : option json) :
  sends_at_most 0 (report rt file_path i result).
Proof.
  unfold report. destruct result as [v|]; [|apply sends_ret].
  destruct (truthy v); [|apply sends_ret].
  destruct (py_in "No PII detected" v) as [[|]|].
  - change 0 with (0 + 0). apply sends_bind; [now apply sends_emit|].
    intros _. now apply sends_emit.
  - change 0 with (0 + 0). apply sends_bind; [now apply sends_emit|].
    intros _. now apply sends_emit.
  - apply sends_raise.
Qed.

Lemma sends_scan_table (file_path : string) (df : table) :
  sends_at_most (5 * List.length (py_range 0 (List.length (rows df)) CHUNK_SIZE))
                (scan_table rt w file_path df).
Proof.
  unfold scan_table. apply sends_for_each. intros i.
  change 5 with (5 + 0). apply sends_bind.
  - apply sends_scan_chunk.
  - intros result. apply sends_report.
Qed.

End Budget.

Section FileBudget.

Import Json Cell Eff Env Scanner Spec Runs.

Variable rt : runtime.
Variable w : world.

(** The number of chunks of a table: its number of rows over the chunk
    size, rounded up. *)
Lemma range_loop_length (size fuel i stop : nat) :
  0 < size -> stop - i <= fuel ->
  List.length (range_loop fuel i stop size) = (stop - i + (size - 1)) / size.
Proof.
  intros Hsize. revert i. induction fuel as [|fuel IH]; intros i Hfuel.
  - cbn. replace (stop - i) with 0 by lia.
    symmetry. apply Nat.div_small. lia.
  - cbn [range_loop]. destruct (Nat.ltb_spec i stop) as [Hlt|Hge].
    + cbn [List.length]. rewrite IH by lia.
      destruct (Nat.le_gt_cases size (stop - i)) as [Hfull|Hshort].
      * replace (stop - i + (size - 1))
          with (stop - (i + size) + (size - 1) + 1 * size) by lia.
        rewrite Nat.div_add by lia. lia.
      * replace (stop - (i + size)) with 0 by lia.
        replace (stop - i + (size - 1)) with (stop - i - 1 + 1 * size) by lia.
        rewrite Nat.div_add by lia.
        rewrite !Nat.div_small by lia. reflexivity.
    + cbn. replace (stop - i) with 0 by lia.
      symmetry. apply Nat.div_small. lia.
Qed.

Lemma load_sends_nothing (file_path : string) (n : nat) :
  posts (trace_of (load w file_path n)) = [].
Proof.
  rewrite load_by_format. destruct (format_of file_path).
  - unfold bind, read_csv.
    destruct (csv_records w file_path) as [msg|lines]; [reflexivity|].
    destruct (skipn 1 lines); reflexivity.
  - unfold bind, read_excel.
    destruct (excel_records w file_path) as [msg|lines]; [reflexivity|].
    destruct (skipn 1 lines); reflexivity.
  - reflexivity.
Qed.

(** X11.  A table of [len] rows is cut in [ceil(len / CHUNK_SIZE)] chunks,
    and whatever the server does the scan of its file sends at most five
    requests per chunk; the counter of requests grows by exactly the number
    of POST events of the file. *)
Theorem file_request_budget (file_path : string) (n : nat) (df : table)
        (evs : list event) :
  load w file_path n = (Ok (Some df), evs, n) ->
  let run := process_file rt w file_path n in
  List.length (py_range 0 (List.length (rows df)) CHUNK_SIZE)
  = (List.length (rows df) + (CHUNK_SIZE - 1)) / CHUNK_SIZE
  /\ sent_of run = n + List.length (posts (trace_of run))
  /\ List.length (posts (trace_of run))
     <= 5 * ((List.length (rows df) + (CHUNK_SIZE - 1)) / CHUNK_SIZE).
Proof.
  intros Hload run.
  assert (Hcount :
    List.length (py_range 0 (List.length (rows df)) CHUNK_SIZE)
    = (List.length (rows df) + (CHUNK_SIZE - 1)) / CHUNK_SIZE).
  { unfold py_range.
    rewrite (range_loop_length CHUNK_SIZE) by (try apply chunk_size_pos; lia).
    now rewrite Nat.sub_0_r. }
  split; [exact Hcount|].
  rewrite <- Hcount. subst run.
  rewrite (process_file_loaded rt w file_path n df evs Hload).
  cbn [sent_of trace_of fst snd].
  pose proof (load_sends_nothing file_path n) as Hevs.
  rewrite Hload in Hevs. cbn [trace_of fst snd] in Hevs.
  destruct (sends_scan_table rt w file_path df n) as [Hsent Hle].
  rewrite !posts_app, !length_app, Hevs.
  replace (posts (file_header_events file_path (rows df))) with (@nil event)
    by reflexivity.
  destruct (result_of (scan_table rt w file_path df n)); cbn; lia.
Qed.

End FileBudget.

(** ** What a run may do to the outside *)

Section Allowed.

Import Json Cell Eff Env Scanner Spec Runs.

Variable rt : runtime.
Variable w : world.
Variable P : event -> Prop.

Lemma only_ret (A : Type) (a : A) : only_emits P (ret a).
Proof. intros n. constructor. Qed.

Lemma only_raise (A : Type) (e : exn) : only_emits P (@raise A e).
Proof. intros n. constructor. Qed.

Lemma only_emit (e : event) : P e -> only_emits P (emit e).
Proof. intros He n. now repeat constructor. Qed.

Lemma only_bind (A B : Type) (c : M A) (k : A -> M B) :
  only_emits P c -> (forall x, only_emits P (k x)) -> only_emits P (bind c k).
Proof.
  intros Hc Hk n. specialize (Hc n). unfold bind.
  destruct (c n) as [[[x|e] evs] n']; cbn [trace_of fst snd] in *; [|exact Hc].
  specialize (Hk x n').
  destruct (k x n') as [[r evs'] n'']; cbn [trace_of fst snd] in *.
  apply Forall_app. now split.
Qed.

Lemma only_try (A : Type) (c : M A) (handler : exn -> option (M A)) :
  only_emits P c ->
  (forall e h, handler e = Some h -> only_emits P h) ->
  only_emits P (try_except c handler).
Proof.
  intros Hc Hh n. specialize (Hc n). unfold try_except.
  destruct (c n) as [[[x|e] evs] n']; cbn [trace_of fst snd] in *; [exact Hc|].
  destruct (handler e) as [h|] eqn:He; cbn [trace_of fst snd]; [|exact Hc].
  specialize (Hh e h He n').
  destruct (h n') as [[r evs'] n'']; cbn [trace_of fst snd] in *.
  apply Forall_app. now split.
Qed.

Lemma only_for_each (A : Type) (l : list A) (body : A -> M unit) :
  (forall x, only_emits P (body x)) -> only_emits P (for_each l body).
Proof.
  intros Hbody. induction l as [|x l IH]; cbn [for_each].
  - apply only_ret.
  - apply only_bind; [apply Hbody | intros _; exact IH].
Qed.

End Allowed.

Section AllowedRun.

Import Json Cell Eff Env Scanner Spec Runs.

Variable rt : runtime.
Variable w : world.

Lemma allowed_request_verdict (chunk : list row) :
  only_emits allowed_event (request_verdict rt w chunk).
Proof.
  intros n.
  assert (Hreq : Forall allowed_event (request_events rt chunk)).
  { unfold request_events. repeat constructor. eexists. reflexivity. }
  destruct (post w n) as [msg|r] eqn:Hpost.
  - rewrite request_verdict_fails by now rewrite Hpost.
    exact Hreq.
  - rewrite (request_verdict_answers rt w chunk n r Hpost).
    cbn [trace_of fst snd]. apply Forall_app. split; [exact Hreq|].
    unfold response_events.
    destruct (status_code r =? 200)%Z; repeat constructor.
Qed.

Lemma allowed_scan_attempts (chunk : list row) (attempts : list nat) :
  only_emits allowed_event (scan_attempts rt w chunk 5 5 attempts).
Proof.
  induction attempts as [|attempt attempts IH]; cbn [scan_attempts].
  - apply only_ret.
  - apply only_try; [apply allowed_request_verdict|].
    intros e h He. destruct e as [msg|msg]; [|discriminate].
    injection He as <-.
    apply only_bind; [apply only_emit; exact I|]. intros _.
    match goal with
    | |- only_emits _ (if ?b then _ else _) => destruct b eqn:Hlt
    end.
    + apply Nat.ltb_lt in Hlt.
      apply only_bind; [|intros _; exact IH].
      unfold sleep. apply only_emit. cbn [allowed_event]. lia.
    + apply only_ret.
Qed.

Lemma allowed_report (file_path : string) (i : nat) (result : option json) :
  only_emits allowed_event (report rt file_path i result).
Proof.
  unfold report. destruct result as [v|]; [|apply only_ret].
  destruct (truthy v); [|apply only_ret].
  destruct (py_in "No PII detected" v) as [[|]|].
  - apply only_bind; [apply only_emit; exact I|].
    intros _. apply only_emit. exact I.
  - apply only_bind; [apply only_emit; exact I|].
    intros _. apply only_emit. exact I.
  - apply only_raise.
Qed.

Lemma allowed_load (file_path : string) :
  only_emits allowed_event (load w file_path).
Proof.
  intros n. rewrite load_by_format. destruct (format_of file_path).
  - unfold bind, read_csv.
    destruct (csv_records w file_path) as [msg|lines]; [now repeat constructor|].
    destruct (skipn 1 lines); now repeat constructor.
  - unfold bind, read_excel.
    destruct (excel_records w file_path) as [msg|lines]; [now repeat constructor|].
    destruct (skipn 1 lines); now repeat constructor.
  - now repeat constructor.
Qed.

Lemma allowed_process_file (file_path : string) :
  only_emits allowed_event (process_file rt w file_path).
Proof.
  unfold process_file. apply only_try.
  - apply only_bind; [apply allowed_load|].
    intros [df|]; [|apply only_ret].
    repeat (apply only_bind; [apply only_emit; exact I | intros _]).
    unfold scan_table. apply only_for_each. intros i.
    apply only_bind; [|intros result; apply allowed_report].
    unfold scan_chunk_with_llm. apply allowed_scan_attempts.
  - intros e h He. injection He as <-. apply only_emit. exact I.
Qed.

(** X12.  Whatever the folder holds and whatever the server answers, a run
    talks to the local server only: its one GET is the probe of
    "http://localhost:11434" with a timeout of 10 seconds, every POST goes to
    [OLLAMA_URL] with a timeout of 300 seconds, the model "llama3" and
    streaming off; it lists the data folder only, reads every file with
    [skiprows=1], and never sleeps more than 20 seconds at a time. *)
Theorem run_stays_local (n : nat) :
  Forall allowed_event (trace_of (main rt w n)).
Proof.
  revert n. change (only_emits allowed_event (main rt w)). unfold main.
  destruct (path_exists w DATA_FOLDER); cbn [negb];
    [|apply only_emit; exact I].
  apply only_bind.
  - intros n. rewrite check_ollama_server_result. now repeat constructor.
  - intros up. destruct up; cbn [negb].
    + apply only_bind.
      * intros n. unfold os_listdir.
        destruct (listdir w DATA_FOLDER); now repeat constructor.
      * intros entries. destruct (filter is_dataset entries) as [|file files].
        -- apply only_bind; [apply only_emit; exact I|].
           intros _. apply only_emit. exact I.
        -- apply only_for_each. intros f. apply allowed_process_file.
    + apply only_bind; [apply only_emit; exact I|].
      intros _. apply only_emit. exact I.
Qed.

End AllowedRun.

(** ** Tokens and chunks *)

Section Tokens.

Import Json Cell Eff Env Scanner Spec Runs.

Lemma flatten_tokens_concat (parts : list (list row)) :
  concat (map flatten_tokens parts) = flatten_tokens (concat parts).
Proof.
  unfold flatten_tokens.
  induction parts as [|c parts IH]; [reflexivity|].
  cbn [map concat]. rewrite IH, concat_app, filter_app, map_app. reflexivity.
Qed.

(** X13.  Chunking loses and repeats no token: the tokens of the chunks of
    a table, put end to end in the order of the chunks, are the tokens of the
    rows of the whole table. *)
Theorem chunk_tokens_are_table_tokens (rows : list row) :
  concat (map extract_non_null_data (chunks CHUNK_SIZE rows))
  = extract_non_null_data rows.
Proof.
  rewrite (map_ext _ _ extract_is_flatten), flatten_tokens_concat.
  destruct (chunks_partition_any_size CHUNK_SIZE rows chunk_size_pos) as [Hcat _].
  rewrite Hcat. symmetry. apply extract_is_flatten.
Qed.

(** X14.  Every token comes from a cell of the chunk that is not missing
    and is not one of the empty values, and is the text of that cell with no
    white space left at either end. *)
Theorem token_origin (chunk : list row) (token : string) :
  In token (extract_non_null_data chunk) ->
  (exists r value,
      In r chunk /\ In value r
      /\ notna value = true
      /\ py_in_list value EMPTY_VALUES = false
      /\ token = PyStr.strip (Cell.str value))
  /\ PyStr.lstrip token = token
  /\ PyStr.rstrip token = token.
Proof.
  unfold extract_non_null_data. rewrite extract_acc. cbn [app].
  intros Hin. apply in_map_iff in Hin as (value & <- & Hvalue).
  apply filter_In in Hvalue as [Hcell Hkept].
  apply in_concat in Hcell as (r & Hr & Hv).
  unfold kept in Hkept. apply andb_true_iff in Hkept as [Hna Hin].
  apply negb_true_iff in Hin.
  repeat apply conj.
  - exists r, value. auto.
  - unfold PyStr.strip. apply lstrip_fixed.
    apply rstrip_starts_trimmed, lstrip_starts_trimmed.
  - unfold PyStr.strip. apply rstrip_idempotent.
Qed.

End Tokens.

(** ** The names [main] forwards *)

Module PathFacts.

Import PyStr.
Local Open Scope string_scope.

(** The needle is one character. *)
Lemma contains_char_cons (c a : ascii) (s : string) :
  contains (String c "") (String a s)
  = Ascii.eqb a c || contains (String c "") s.
Proof.
  cbn [contains startswith]. rewrite andb_true_r, (Ascii.eqb_sym c a).
  reflexivity.
Qed.

Lemma contains_char_app (c : ascii) (a b : string) :
  contains (String c "") (a ++ b)
  = contains (String c "") a || contains (String c "") b.
Proof.
  induction a as [|x a IH].
  - cbn [append]. destruct b; reflexivity.
  - cbn [append]. rewrite !contains_char_cons, IH. apply orb_assoc.
Qed.

Lemma rfind_from_absent (c : ascii) (s : string) (i : Z) :
  contains (String c "") s = false -> rfind_from c s i = (-1)%Z.
Proof.
  revert i. induction s as [|a s IH]; intros i H; [reflexivity|].
  rewrite contains_char_cons in H. apply orb_false_iff in H as [Ha Hs].
  cbn [rfind_from]. rewrite IH by assumption. cbn. now rewrite Ha.
Qed.

Lemma rfind_from_last (c : ascii) (stem rest : string) (i : Z) :
  (0 <= i)%Z ->
  contains (String c "") rest = false ->
  rfind_from c (stem ++ String c rest) i = (i + Z.of_nat (String.length stem))%Z.
Proof.
  intros Hi Hrest. revert i Hi. induction stem as [|a stem IH]; intros i Hi.
  - cbn [append rfind_from String.length].
    rewrite rfind_from_absent by assumption. cbn.
    rewrite Ascii.eqb_refl. lia.
  - cbn [append rfind_from String.length]. rewrite IH by lia.
    replace (0 <=? i + 1 + Z.of_nat (String.length stem))%Z with true
      by (symmetry; apply Z.leb_le; lia).
    lia.
Qed.

Lemma take_app (a b : string) : take (String.length a) (a ++ b) = a.
Proof. induction a as [|x a IH]; cbn; [now destruct b | now rewrite IH]. Qed.

Lemma drop_app (a b : string) : drop (String.length a) (a ++ b) = b.
Proof. induction a as [|x a IH]; cbn; [now destruct b | exact IH]. Qed.

Lemma char_at_app (a : string) (c : ascii) (rest : string) :
  char_at (String.length a) (a ++ String c rest) = String c "".
Proof. unfold char_at. now rewrite drop_app. Qed.

Lemma length_app (a b : string) :
  String.length (a ++ b) = String.length a + String.length b.
Proof. induction a as [|x a IH]; cbn; [reflexivity | now rewrite IH]. Qed.

(** The loop over the leading dots of a name: it finds a character that is
    no dot, or it runs to the last dot. *)
Lemma skip_leading_dots_stem (a stem : string) (c : ascii) (rest : string)
      (dotIndex : nat) :
  skip_leading_dots (a ++ stem ++ String c rest) dotIndex
                    (String.length stem) (String.length a)
  = if Runs.all_dots stem
    then (a ++ stem ++ String c rest, "")
    else (take dotIndex (a ++ stem ++ String c rest),
          drop dotIndex (a ++ stem ++ String c rest)).
Proof.
  revert a. induction stem as [|x stem IH]; intros a; [reflexivity|].
  cbn [String.length skip_leading_dots Runs.all_dots].
  change ((String x stem) ++ String c rest) with (String x (stem ++ String c rest)).
  rewrite char_at_app.
  replace (String.eqb (String x "") ".") with (Ascii.eqb x ".")
    by (cbn; now destruct (Ascii.eqb x ".")).
  destruct (Ascii.eqb x "."); cbn [negb andb]; [|reflexivity].
  specialize (IH (a ++ String x "")).
  rewrite length_app in IH. cbn [String.length] in IH.
  rewrite Nat.add_1_r, !StrFacts.app_assoc in IH. exact IH.
Qed.

(** [os.path.splitext] on a path of the data folder whose name carries a
    suffix: the suffix is the extension, unless the name is dots only before
    it. *)
Lemma splitext_in_folder (stem letters : string) :
  contains "/" stem = false ->
  contains "/" letters = false ->
  contains "." letters = false ->
  splitext ("Data/" ++ stem ++ String "." letters)
  = if Runs.all_dots stem
    then ("Data/" ++ stem ++ String "." letters, "")
    else ("Data/" ++ stem, String "." letters).
Proof.
  intros Hstem Hslash Hdot. unfold splitext, rfind.
  assert (Hsep : rfind_from "/" ("Data/" ++ stem ++ String "." letters) 0 = 4%Z).
  { cbn [append rfind_from].
    rewrite rfind_from_absent; [reflexivity|].
    rewrite contains_char_app, Hstem, contains_char_cons, Hslash. reflexivity. }
  assert (Hext : rfind_from "." ("Data/" ++ stem ++ String "." letters) 0
                 = (5 + Z.of_nat (String.length stem))%Z).
  { cbn [append rfind_from].
    rewrite rfind_from_last by (try assumption; lia).
    assert (Hpos : (0 <=? 0 + 1 + 1 + 1 + 1 + 1 + Z.of_nat (String.length stem))%Z
                   = true) by (apply Z.leb_le; lia).
    repeat (rewrite Hpos; cbv iota).
    lia. }
  rewrite Hsep, Hext.
  replace (4 <? 5 + Z.of_nat (String.length stem))%Z with true
    by (symmetry; apply Z.ltb_lt; lia).
  replace (Z.to_nat (5 + Z.of_nat (String.length stem) - (4 + 1)))
    with (String.length stem) by lia.
  change (Z.to_nat (4 + 1)) with (String.length "Data/").
  rewrite (skip_leading_dots_stem "Data/" stem "." letters).
  destruct (Runs.all_dots stem); [reflexivity|].
  replace (Z.to_nat (5 + Z.of_nat (String.length stem)))
    with (String.length ("Data/" ++ stem))
    by (rewrite length_app; cbn [String.length]; lia).
  rewrite <- (StrFacts.app_assoc "Data/" stem (String "." letters)).
  now rewrite take_app, drop_app.
Qed.

(** [endswith] decides being a suffix. *)
Lemma endswith_spec (suf s : string) :
  endswith suf s = true <-> exists stem, s = stem ++ suf.
Proof.
  induction s as [|c s IH]; cbn [endswith].
  - rewrite orb_false_r, String.eqb_eq. split.
    + intros <-. now exists "".
    + intros [stem H]. destruct stem; [exact H | discriminate].
  - rewrite orb_true_iff, String.eqb_eq, IH. split.
    + intros [<-|[stem ->]]; [now exists "" | now exists (String c stem)].
    + intros [stem H]. destruct stem as [|x stem]; cbn in H.
      * now left.
      * right. injection H as _ ->. now exists stem.
Qed.

End PathFacts.

Section Forwarded.

Import Json Cell Eff Env Scanner Spec Runs.

Lemma path_join_data_folder (name : string) :
  PyStr.contains "/" name = false ->
  PyStr.path_join DATA_FOLDER name = ("Data/" ++ name)%string.
Proof.
  intros Hslash. unfold PyStr.path_join.
  replace (PyStr.startswith "/" name) with false; [reflexivity|].
  destruct name as [|a name]; [reflexivity|].
  rewrite PathFacts.contains_char_cons in Hslash.
  apply orb_false_iff in Hslash as [Ha _].
  cbn [PyStr.startswith]. now rewrite Ascii.eqb_sym, Ha.
Qed.

Lemma extension_of_suffixed (stem letters : string) :
  PyStr.contains "/" (stem ++ String "." letters) = false ->
  PyStr.contains "." letters = false ->
  snd (PyStr.splitext (PyStr.path_join DATA_FOLDER (stem ++ String "." letters)))
  = if all_dots stem then ""%string else String "." letters.
Proof.
  intros Hslash Hdot.
  rewrite path_join_data_folder by assumption.
  rewrite PathFacts.contains_char_app, PathFacts.contains_char_cons in Hslash.
  apply orb_false_iff in Hslash as [Hstem Hletters].
  apply orb_false_iff in Hletters as [_ Hletters].
  rewrite PathFacts.splitext_in_folder by assumption.
  now destruct (all_dots stem).
Qed.

(** X15.  A name of the folder (it holds no "/") that [main] forwards ends
    in one of the three suffixes, and [process_file] reads it with the reader
    of that suffix, unless the name is made of dots only before the suffix
    (".csv", "..xls"): such a name has no extension for [os.path.splitext]
    and is the only kind the "Unsupported file format" warning can meet in a
    run. *)
Theorem forwarded_names (name : string) :
  is_dataset name = true ->
  PyStr.contains "/" name = false ->
  exists stem suffix,
    name = (stem ++ suffix)%string
    /\ In suffix [".csv"; ".xls"; ".xlsx"]
    /\ format_of (PyStr.path_join DATA_FOLDER name)
       = if all_dots stem then Unsupported
         else if String.eqb suffix ".csv" then Csv else Excel.
Proof.
  intros Hdata Hslash. unfold is_dataset, PyStr.endswith_any in Hdata.
  cbn [existsb] in Hdata. rewrite orb_false_r in Hdata.
  apply orb_true_iff in Hdata as [H|H]; [|apply orb_true_iff in H as [H|H]];
    apply PathFacts.endswith_spec in H as [stem ->];
    exists stem; eexists; (split; [reflexivity|]);
    (split; [cbn; tauto|]);
    unfold format_of;
    rewrite extension_of_suffixed by (assumption || reflexivity);
    destruct (all_dots stem); reflexivity.
Qed.

End Forwarded.


(** ** Recovering from transport failures *)

Section Recovery.

Import Json Cell Eff Env Scanner Spec Runs.

Variable rt : runtime.
Variable w : world.

(** X16.  For any number of retries and any delay, when the first [k]
    attempts of a call fail in the transport and the next one is answered,
    the call has sent [k + 1] requests and slept [delay * 1], ...,
    [delay * k] seconds, and its outcome is that of the answer alone: the
    failures before it leave no mark on the result. *)
Theorem recovery_cost (chunk : list row) (retries delay n k : nat) (r : response) :
  k < retries ->
  (forall j, j < k -> fails (post w (n + j)) = true) ->
  post w (n + k) = Answers r ->
  let run := scan_chunk_with_llm rt w chunk retries delay n in
  result_of run = response_result rt r
  /\ sent_of run = n + k + 1
  /\ List.length (posts (trace_of run)) = k + 1
  /\ sleeps (trace_of run) = map (fun attempt => delay * (attempt + 1)) (seq 0 k).
Proof.
  intros Hk Hfail Hans run. subst run.
  rewrite (scan_chunk_answered_after rt w chunk retries delay n k r Hk Hfail Hans).
  cbn [result_of trace_of sent_of fst snd].
  repeat apply conj.
  - reflexivity.
  - lia.
  - rewrite !posts_app, !length_app, posts_failed_attempts.
    unfold response_events. destruct (status_code r =? 200)%Z; cbn; lia.
  - rewrite !sleeps_app, sleeps_failed_attempts by lia.
    unfold response_events. destruct (status_code r =? 200)%Z; cbn;
      now rewrite app_nil_r.
Qed.

End Recovery.

(** ** The further properties on concrete runs *)

Lemma reads_only_after_checks_witness :
  let w := Spec.demo_world ["b.csv"] [] Runs.server_up Runs.always_clean in
  Env.path_exists w Scanner.DATA_FOLDER = true
  /\ (exists r, Env.probe w = Env.Answers r /\ Env.status_code r = 200%Z)
  /\ (exists entries,
         Env.listdir w Scanner.DATA_FOLDER = inr entries
         /\ filter Scanner.is_dataset entries <> []).
Proof.
  intros w.
  apply (reads_only_after_checks Spec.demo_runtime w 0 (Eff.EvReadCsv "Data/b.csv" 1)).
  - right. right. left. reflexivity.
  - exact I.
Defined.

Lemma no_dataset_ends_run_witness :
  let w := Spec.demo_world ["REPORT.CSV"; "notes.txt"] Runs.three_lines
             Runs.server_up Runs.always_clean in
  Scanner.main Spec.demo_runtime w 0
  = (Eff.Ok tt,
     [Eff.EvGet "http://localhost:11434" 10;
      Eff.EvListdir Scanner.DATA_FOLDER;
      Eff.EvLog Eff.INFO "No datasets found in the Data folder.";
      Eff.EvPrint "No datasets found."],
     0).
Proof.
  intros w.
  apply (no_dataset_ends_run Spec.demo_runtime w ["REPORT.CSV"; "notes.txt"]
           (Env.Response 200 "Ollama is running") 0); try reflexivity.
  intros name [<-|[<-|[]]]; reflexivity.
Defined.

Lemma main_returns_witness :
  let w := Spec.demo_world ["a.csv"] Runs.three_lines Runs.server_up (fun _ => Spec.refusing) in
  Eff.result_of (Scanner.main Spec.demo_runtime w 0) = Eff.Ok tt.
Proof.
  intros w. apply (main_returns Spec.demo_runtime w ["a.csv"] 0). reflexivity.
Defined.

Lemma listdir_error_escapes_witness :
  let w := Env.World (fun _ => true) (fun _ => inl "Not a directory: 'Data'")
             (fun _ => inr Runs.three_lines) (fun _ => inr Runs.three_lines)
             Runs.server_up Runs.always_clean in
  Scanner.main Spec.demo_runtime w 0
  = (Eff.Raised (Eff.OtherException "Not a directory: 'Data'"),
     [Eff.EvGet "http://localhost:11434" 10; Eff.EvListdir Scanner.DATA_FOLDER], 0).
Proof.
  intros w.
  apply (listdir_error_escapes Spec.demo_runtime w "Not a directory: 'Data'"
           (Env.Response 200 "Ollama is running") 0); reflexivity.
Defined.

Lemma reader_error_is_contained_witness :
  let w := Env.World (fun _ => true) (fun _ => inr ["a.csv"])
             (fun _ => inl "Error tokenizing data") (fun _ => inr Runs.three_lines)
             Runs.server_up Runs.always_clean in
  Scanner.process_file Spec.demo_runtime w "Data/a.csv" 0
  = (Eff.Ok tt,
     [Eff.EvReadCsv "Data/a.csv" 1;
      Eff.EvLog Eff.ERROR "Error processing Data/a.csv: Error tokenizing data"],
     0).
Proof.
  intros w.
  apply (reader_error_is_contained Spec.demo_runtime w "Data/a.csv"
           "Error tokenizing data" 0).
  reflexivity.
Defined.

Lemma empty_table_sends_nothing_witness :
  let w := Spec.demo_world ["a.csv"]
             [[Cell.CStr "export"]; [Cell.CStr "name"; Cell.CStr "age"]]
             Runs.server_up Runs.always_clean in
  Scanner.process_file Spec.demo_runtime w "Data/a.csv" 0
  = (Eff.Ok tt,
     [Eff.EvReadCsv "Data/a.csv" 1] ++ Runs.file_header_events "Data/a.csv" [],
     0).
Proof.
  intros w.
  apply (empty_table_sends_nothing Spec.demo_runtime w "Data/a.csv" 0
           (Cell.Table [Cell.CStr "name"; Cell.CStr "age"] [])); reflexivity.
Defined.

Lemma unusable_body_aborts_file_witness :
  let rt := Env.Runtime (fun _ => inl "Expecting value: line 1 column 1 (char 0)")
              (fun _ => "{...}") (fun _ => "") (fun _ => "") in
  let w := Spec.demo_world ["a.csv"] Runs.three_lines Runs.server_up
             (fun _ => Env.Answers (Env.Response 200 "<html>")) in
  Eff.sent_of (Scanner.process_file rt w "Data/a.csv" 0) = 1
  /\ last (Eff.trace_of (Scanner.process_file rt w "Data/a.csv" 0)) (Eff.EvSleep 0)
     = Eff.EvLog Eff.ERROR
         "Error processing Data/a.csv: Expecting value: line 1 column 1 (char 0)".
Proof.
  intros rt w.
  rewrite (unusable_body_aborts_file rt w "Data/a.csv" 0
             (Cell.Table [Cell.CStr "name"; Cell.CStr "age"]
                         [[Cell.CStr "Ann"; Cell.CInt 31]])
             [Eff.EvReadCsv "Data/a.csv" 1]
             (Env.Response 200 "<html>")
             (Eff.OtherException "Expecting value: line 1 column 1 (char 0)"));
    try reflexivity.
  - split; reflexivity.
  - discriminate.
Defined.

Lemma answered_file_trace_witness :
  let w := Spec.demo_world ["a.csv"] Runs.three_lines Runs.server_up Runs.always_clean in
  Eff.sent_of (Scanner.process_file Spec.demo_runtime w "Data/a.csv" 0) = 1
  /\ last (Eff.trace_of (Scanner.process_file Spec.demo_runtime w "Data/a.csv" 0))
          (Eff.EvSleep 0)
     = Eff.EvLog Eff.INFO "No PII detected in Data/a.csv (Rows 0-999).".
Proof.
  intros w.
  rewrite (answered_file_trace Spec.demo_runtime w "Data/a.csv" 0
             (Cell.Table [Cell.CStr "name"; Cell.CStr "age"]
                         [[Cell.CStr "Ann"; Cell.CInt 31]])
             [Eff.EvReadCsv "Data/a.csv" 1]).
  - split; reflexivity.
  - reflexivity.
  - intros k _.
    exists (Env.Response 200 "No PII detected."),
           [("response", Json.JStr "No PII detected.")], "No PII detected.".
    repeat split.
Defined.

Lemma retries_exhausted_witness :
  let w := Spec.demo_world ["a.csv"] Runs.three_lines Runs.server_up (fun _ => Spec.refusing) in
  let run := Scanner.scan_chunk_with_llm Spec.demo_runtime w [[Cell.CStr "Ann"]] 3 2 0 in
  Eff.result_of run = Eff.Ok None
  /\ Eff.sent_of run = 3
  /\ Spec.sleeps (Eff.trace_of run) = [2; 4].
Proof.
  intros w run.
  destruct (retries_exhausted Spec.demo_runtime w [[Cell.CStr "Ann"]] 3 2 0
              (fun j _ => eq_refl)) as (Hres & Hsent & _ & Hsleeps & _).
  repeat split; assumption.
Defined.

Lemma file_request_budget_witness :
  let w := Spec.demo_world ["a.csv"] Runs.three_lines Runs.server_up (fun _ => Spec.refusing) in
  List.length (Spec.posts (Eff.trace_of
                 (Scanner.process_file Spec.demo_runtime w "Data/a.csv" 0))) <= 5.
Proof.
  intros w.
  destruct (file_request_budget Spec.demo_runtime w "Data/a.csv" 0
              (Cell.Table [Cell.CStr "name"; Cell.CStr "age"]
                          [[Cell.CStr "Ann"; Cell.CInt 31]])
              [Eff.EvReadCsv "Data/a.csv" 1] eq_refl) as (_ & _ & Hle).
  exact Hle.
Defined.

Lemma token_origin_witness :
  PyStr.lstrip "Ann" = "Ann" /\ PyStr.rstrip "Ann" = "Ann".
Proof.
  destruct (token_origin [[Cell.CNaN; Cell.CStr " Ann "]] "Ann") as (_ & Hl & Hr).
  - left. reflexivity.
  - split; assumption.
Defined.

Lemma forwarded_names_witness :
  exists stem suffix,
    "..csv" = (stem ++ suffix)%string
    /\ In suffix [".csv"; ".xls"; ".xlsx"]
    /\ Spec.format_of (PyStr.path_join Scanner.DATA_FOLDER "..csv")
       = if Runs.all_dots stem then Spec.Unsupported
         else if String.eqb suffix ".csv" then Spec.Csv else Spec.Excel.
Proof. exact (forwarded_names "..csv" eq_refl eq_refl). Defined.

Lemma recovery_cost_witness :
  let w := Spec.demo_world ["a.csv"] Runs.three_lines Runs.server_up
             (fun k => if Nat.ltb k 2 then Spec.refusing else Runs.always_clean k) in
  let run := Scanner.scan_chunk_with_llm Spec.demo_runtime w [[Cell.CStr "Ann"]] 5 5 0 in
  Eff.result_of run = Eff.Ok (Some (Json.JStr "No PII detected."))
  /\ Eff.sent_of run = 3
  /\ Spec.sleeps (Eff.trace_of run) = [5; 10].
Proof.
  intros w run.
  destruct (recovery_cost Spec.demo_runtime w [[Cell.CStr "Ann"]] 5 5 0 2
              (Env.Response 200 "No PII detected."))
    as (Hres & Hsent & _ & Hsleeps).
  - repeat constructor.
  - intros j Hj. destruct j as [|[|j]]; [reflexivity | reflexivity |].
    exfalso. inversion Hj as [|? H1]. inversion H1 as [|? H2]. inversion H2.
  - reflexivity.
  - repeat split; assumption.
Defined.
